(** * NetdClient: the client-side socket interception layer of netd

    A shallow embedding of [client/NetdClient.cpp] together with the
    properties of its wrappers, its process-wide network slots and its
    public marking entry points.

    The source compiles in two ways, with and without [USE_WRAPPER]; the
    embedding keeps both, selected by a flag of the platform.

    Everything outside the translation unit (the kernel, libc, the fwmark
    daemon behind [FwmarkClient::send]) is an oracle: a function on an
    abstract system state.  The wrappers are written in a small
    state-and-failure monad over a [World], which carries that system
    state, [errno], the two atomics of the file, the captured libc entry
    points, and a log of every call that left the translation unit. *)

From Stdlib Require Import ZArith List Bool Lia.
Import ListNotations.
Local Open Scope Z_scope.

(** ** Machine integers *)

Definition INT_MIN : Z := - 2 ^ 31.
Definition INT_MAX : Z := 2 ^ 31 - 1.
Definition UINT_MODULUS : Z := 2 ^ 32.

(** Reduction of an integer into the range of [int]. *)
Definition wrap_int (z : Z) : Z := (z + 2 ^ 31) mod 2 ^ 32 - 2 ^ 31.

(** Unary minus on [int], as in [errno = -error] and [return -errno]. *)
Definition int_neg (z : Z) : Z := wrap_int (- z).

(** Conversion to [unsigned], as in [const unsigned latencyMs = lround(...)]. *)
Definition to_unsigned (z : Z) : Z := z mod UINT_MODULUS.

(** ** Constants of the included headers *)

(** Modelled from the spec: [NETID_UNSET] is defined in resolv_netid.h,
    which is not part of the sources at hand; the specification names the
    unset identifier as id 0. *)
Definition NETID_UNSET : Z := 0.

(** Linux values of the errno.h and sys/socket.h constants the file uses. *)
Definition EBADF : Z := 9.
Definition AF_INET6 : Z := 10.
Definition SOCK_DGRAM : Z := 2.
Definition SOCK_CLOEXEC : Z := 524288.
Definition SOL_SOCKET : Z := 1.
Definition SO_MARK : Z := 36.
Definition SO_DOMAIN : Z := 39.

(** ** Data *)

(** [struct sockaddr]. *)
Record sockaddr : Type := mk_sockaddr {
  sa_family : Z;
  sa_data : list Z
}.

(** [FwmarkCommand::CmdId]. *)
Inductive CmdId : Type :=
| ON_ACCEPT
| ON_CONNECT
| SELECT_NETWORK
| PROTECT_FROM_VPN
| SELECT_FOR_USER
| QUERY_USER_ACCESS
| ON_CONNECT_COMPLETE.

(** [struct FwmarkCommand], initialised as [{cmdId, netId, uid}]. *)
Record FwmarkCommand : Type := mk_FwmarkCommand {
  cmd_cmdId : CmdId;
  cmd_netId : Z;
  cmd_uid : Z
}.

(** [struct FwmarkConnectInfo], built by
    [FwmarkConnectInfo(error, latencyMs, addr)]. *)
Record FwmarkConnectInfo : Type := mk_FwmarkConnectInfo {
  ci_error : Z;
  ci_latencyMs : Z;
  ci_addr : sockaddr
}.

Definition CmdId_eqb (a b : CmdId) : bool :=
  match a, b with
  | ON_ACCEPT, ON_ACCEPT
  | ON_CONNECT, ON_CONNECT
  | SELECT_NETWORK, SELECT_NETWORK
  | PROTECT_FROM_VPN, PROTECT_FROM_VPN
  | SELECT_FOR_USER, SELECT_FOR_USER
  | QUERY_USER_ACCESS, QUERY_USER_ACCESS
  | ON_CONNECT_COMPLETE, ON_CONNECT_COMPLETE => true
  | _, _ => false
  end.

(** The two atomics of the anonymous namespace, as targets of
    [setNetworkForTarget]. *)
Inductive Target : Type :=
| ForProcess
| ForResolv.

(** ** The system outside the translation unit *)

(** The state every external call may read and change: the thread's
    [errno] and an abstract state [K] of kernel and daemon. *)
Record Sys (K : Type) : Type := mk_Sys {
  errno : Z;
  kernel : K
}.
Arguments mk_Sys {K} _ _.
Arguments errno {K} _.
Arguments kernel {K} _.

Definition with_errno {K : Type} (e : Z) (s : Sys K) : Sys K :=
  mk_Sys e (kernel s).

(** Types of the libc entry points the installers capture.  An [accept4]
    returns, next to its result, what it left in [*addr] and [*addrlen];
    these are only observable where the caller passed a non-null pointer. *)
Definition Accept4FunctionType (K : Type) : Type :=
  Z -> option sockaddr -> option Z -> Z -> Sys K -> (Z * sockaddr * Z) * Sys K.
Definition ConnectFunctionType (K : Type) : Type :=
  Z -> option sockaddr -> Z -> Sys K -> Z * Sys K.
Definition SocketFunctionType (K : Type) : Type :=
  Z -> Z -> Z -> Sys K -> Z * Sys K.

(** [__propClientDispatch] of codeaurora/PropClientDispatch.h, which a
    build with [USE_WRAPPER] consults: two entry points that may be null. *)
Record PropClientDispatch (K : Type) : Type := mk_PropClientDispatch {
  propConnect : option (ConnectFunctionType K);
  propSocket : option (SocketFunctionType K)
}.
Arguments mk_PropClientDispatch {K} _ _.
Arguments propConnect {K} _.
Arguments propSocket {K} _.

(** What the file calls but does not define, and how it is compiled. *)
Class Platform (K : Type) : Type := {
  (** whether the file is compiled with [USE_WRAPPER] defined *)
  USE_WRAPPER : bool;
  (** [FwmarkClient::shouldSetFwmark(family)] *)
  shouldSetFwmark : Z -> bool;
  (** [FwmarkClient::shouldReportConnectComplete(family)] *)
  shouldReportConnectComplete : Z -> bool;
  (** [FwmarkClient().send(&command, fd, connectInfo)] *)
  FwmarkClient_send :
    FwmarkCommand -> Z -> option FwmarkConnectInfo -> Sys K -> Z * Sys K;
  (** [socket(domain, type, protocol)] as the linker resolves it *)
  socket : SocketFunctionType K;
  (** [close(fd)] *)
  close : Z -> Sys K -> Z * Sys K;
  (** [getsockopt(fd, level, optname, &value, &len)] for an [int]-sized
      option: the result and the value written *)
  getsockopt : Z -> Z -> Z -> Sys K -> (Z * Z) * Sys K;
  (** [lround(s.timeTaken())] for a [Stopwatch s] constructed in the first
      state and read in the second *)
  Stopwatch_timeTaken : Sys K -> Sys K -> Z;
  (** the [netId] bit-field of the [Fwmark] union holding [intValue] *)
  Fwmark_netId : Z -> Z
}.

(** Calls that leave the translation unit, with their results. *)
Inductive Event : Type :=
| EvLibcAccept4 (sockfd : Z) (addr : option sockaddr) (addrlen : option Z)
    (flags : Z) (result : Z)
| EvLibcConnect (sockfd : Z) (addr : option sockaddr) (addrlen : Z) (result : Z)
| EvLibcSocket (domain type protocol : Z) (result : Z)
| EvPropConnect (sockfd : Z) (addr : option sockaddr) (addrlen : Z) (result : Z)
| EvPropSocket (domain type protocol : Z) (result : Z)
| EvSocket (domain type protocol : Z) (result : Z)
| EvClose (fd : Z) (result : Z)
| EvGetsockopt (fd level optname : Z) (result : Z) (value : Z)
| EvSend (command : FwmarkCommand) (fd : Z) (info : option FwmarkConnectInfo)
    (status : Z).

(** A daemon exchange is a [FwmarkClient().send]. *)
Definition is_send (e : Event) : bool :=
  match e with
  | EvSend _ _ _ _ => true
  | _ => false
  end.

Definition is_send_of (c : CmdId) (e : Event) : bool :=
  match e with
  | EvSend command _ _ _ => CmdId_eqb (cmd_cmdId command) c
  | _ => false
  end.

(** A connection attempt, through libc or through the dispatch table. *)
Definition is_connect (e : Event) : bool :=
  match e with
  | EvLibcConnect _ _ _ _ | EvPropConnect _ _ _ _ => true
  | _ => false
  end.

Section NetdClient.

Context {K : Type} {P : Platform K}.

(** ** The world of one thread of the process *)

Record World : Type := mk_World {
  sys : Sys K;
  netIdForProcess : Z;
  netIdForResolv : Z;
  libcAccept4 : option (Accept4FunctionType K);
  libcConnect : option (ConnectFunctionType K);
  libcSocket : option (SocketFunctionType K);
  propClientDispatch : PropClientDispatch K;
  trace : list Event
}.

Definition with_sys (s : Sys K) (w : World) : World :=
  mk_World s (netIdForProcess w) (netIdForResolv w)
    (libcAccept4 w) (libcConnect w) (libcSocket w)
    (propClientDispatch w) (trace w).

Definition log (e : Event) (w : World) : World :=
  mk_World (sys w) (netIdForProcess w) (netIdForResolv w)
    (libcAccept4 w) (libcConnect w) (libcSocket w)
    (propClientDispatch w) (trace w ++ [e]).

(** ** The monad: state passing, [None] for undefined behaviour
    (a call through a null function pointer, a read through a null
    pointer) *)

Definition M (A : Type) : Type := World -> option (A * World).

Definition ret {A : Type} (a : A) : M A := fun w => Some (a, w).

Definition bind {A B : Type} (m : M A) (k : A -> M B) : M B :=
  fun w =>
    match m w with
    | Some (a, w') => k a w'
    | None => None
    end.

Definition undefined {A : Type} : M A := fun _ => None.

Notation "x <- m ;; k" := (bind m (fun x => k))
  (at level 61, m at next level, right associativity).
Notation "m ;;; k" := (bind m (fun _ => k))
  (at level 61, right associativity).
Notation "' pat <- m ;; k" := (bind m (fun x => let 'pat := x in k))
  (at level 61, pat pattern, m at next level, right associativity).

(** *** Reads and writes of the file's own state *)

Definition get_errno : M Z := fun w => Some (errno (sys w), w).

Definition set_errno (e : Z) : M unit :=
  fun w => Some (tt, with_sys (with_errno e (sys w)) w).

Definition load (target : Target) : M Z :=
  fun w =>
    match target with
    | ForProcess => Some (netIdForProcess w, w)
    | ForResolv => Some (netIdForResolv w, w)
    end.

Definition store (target : Target) (netId : Z) : M unit :=
  fun w =>
    match target with
    | ForProcess =>
        Some (tt, mk_World (sys w) netId (netIdForResolv w)
                    (libcAccept4 w) (libcConnect w) (libcSocket w)
                    (propClientDispatch w) (trace w))
    | ForResolv =>
        Some (tt, mk_World (sys w) (netIdForProcess w) netId
                    (libcAccept4 w) (libcConnect w) (libcSocket w)
                    (propClientDispatch w) (trace w))
    end.

(** [p->field] for a pointer that may be null. *)
Definition deref {A : Type} (p : option A) : M A :=
  fun w =>
    match p with
    | Some a => Some (a, w)
    | None => undefined w
    end.

(** The tests [if (__propClientDispatch.propConnect)] and
    [if (__propClientDispatch.propSocket)]. *)
Definition propConnect_is_set : M bool :=
  fun w =>
    match propConnect (propClientDispatch w) with
    | Some _ => Some (true, w)
    | None => Some (false, w)
    end.

Definition propSocket_is_set : M bool :=
  fun w =>
    match propSocket (propClientDispatch w) with
    | Some _ => Some (true, w)
    | None => Some (false, w)
    end.

(** The test [if (libcSocket)] on the captured pointer. *)
Definition libcSocket_is_set : M bool :=
  fun w =>
    match libcSocket w with
    | Some _ => Some (true, w)
    | None => Some (false, w)
    end.

(** The slot a target points to. *)
Definition slot (target : Target) (w : World) : Z :=
  match target with
  | ForProcess => netIdForProcess w
  | ForResolv => netIdForResolv w
  end.

(** *** External calls *)

Definition call_close (fd : Z) : M Z :=
  fun w =>
    let '(r, s) := close fd (sys w) in
    Some (r, log (EvClose fd r) (with_sys s w)).

Definition call_getsockopt (fd level optname : Z) : M (Z * Z) :=
  fun w =>
    let '(r, v, s) := getsockopt fd level optname (sys w) in
    Some ((r, v), log (EvGetsockopt fd level optname r v) (with_sys s w)).

Definition call_send (command : FwmarkCommand) (fd : Z)
    (info : option FwmarkConnectInfo) : M Z :=
  fun w =>
    let '(r, s) := FwmarkClient_send command fd info (sys w) in
    Some (r, log (EvSend command fd info r) (with_sys s w)).

Definition call_socket (domain type protocol : Z) : M Z :=
  fun w =>
    let '(r, s) := socket domain type protocol (sys w) in
    Some (r, log (EvSocket domain type protocol r) (with_sys s w)).

Definition call_libcSocket (domain type protocol : Z) : M Z :=
  fun w =>
    match libcSocket w with
    | None => undefined w
    | Some f =>
        let '(r, s) := f domain type protocol (sys w) in
        Some (r, log (EvLibcSocket domain type protocol r) (with_sys s w))
    end.

Definition call_libcConnect (sockfd : Z) (addr : option sockaddr)
    (addrlen : Z) : M Z :=
  fun w =>
    match libcConnect w with
    | None => undefined w
    | Some f =>
        let '(r, s) := f sockfd addr addrlen (sys w) in
        Some (r, log (EvLibcConnect sockfd addr addrlen r) (with_sys s w))
    end.

Definition call_propSocket (domain type protocol : Z) : M Z :=
  fun w =>
    match propSocket (propClientDispatch w) with
    | None => undefined w
    | Some f =>
        let '(r, s) := f domain type protocol (sys w) in
        Some (r, log (EvPropSocket domain type protocol r) (with_sys s w))
    end.

Definition call_propConnect (sockfd : Z) (addr : option sockaddr)
    (addrlen : Z) : M Z :=
  fun w =>
    match propConnect (propClientDispatch w) with
    | None => undefined w
    | Some f =>
        let '(r, s) := f sockfd addr addrlen (sys w) in
        Some (r, log (EvPropConnect sockfd addr addrlen r) (with_sys s w))
    end.

(** What a caller's buffer holds after a call that wrote [v] through the
    pointer, when the pointer was not null. *)
Definition written {A : Type} (p : option A) (v : A) : option A :=
  match p with
  | Some _ => Some v
  | None => None
  end.

Definition call_libcAccept4 (sockfd : Z) (addr : option sockaddr)
    (addrlen : option Z) (flags : Z) : M (Z * option sockaddr * option Z) :=
  fun w =>
    match libcAccept4 w with
    | None => undefined w
    | Some f =>
        let '(r, a, l, s) := f sockfd addr addrlen flags (sys w) in
        Some ((r, written addr a, written addrlen l),
              log (EvLibcAccept4 sockfd addr addrlen flags r) (with_sys s w))
    end.

(** [Stopwatch s; ... lround(s.timeTaken())]: the stopwatch keeps the state
    it was started in. *)
Definition Stopwatch_start : M (Sys K) := fun w => Some (sys w, w).

Definition Stopwatch_read (started : Sys K) : M Z :=
  fun w => Some (Stopwatch_timeTaken started (sys w), w).

(** ** The functions of NetdClient.cpp *)

Definition closeFdAndSetErrno (fd error : Z) : M Z :=
  call_close fd ;;;
  set_errno (int_neg error) ;;;
  ret (-1).

Definition setNetworkForSocket (netId socketFd : Z) : M Z :=
  if socketFd <? 0 then ret (int_neg EBADF)
  else
    let command := mk_FwmarkCommand SELECT_NETWORK netId 0 in
    call_send command socketFd None.

Definition netdClientAccept4 (sockfd : Z) (addr : option sockaddr)
    (addrlen : option Z) (flags : Z) : M (Z * option sockaddr * option Z) :=
  '(acceptedSocket, addr', addrlen') <-
    call_libcAccept4 sockfd addr addrlen flags ;;
  if acceptedSocket =? -1 then ret (-1, addr', addrlen')
  else
    let mark (family : Z) : M (Z * option sockaddr * option Z) :=
      if shouldSetFwmark family then
        let command := mk_FwmarkCommand ON_ACCEPT 0 0 in
        error <- call_send command acceptedSocket None ;;
        if negb (error =? 0) then
          r <- closeFdAndSetErrno acceptedSocket error ;;
          ret (r, addr', addrlen')
        else ret (acceptedSocket, addr', addrlen')
      else ret (acceptedSocket, addr', addrlen') in
    match addr' with
    | Some a => mark (sa_family a)
    | None =>
        '(r, family) <- call_getsockopt acceptedSocket SOL_SOCKET SO_DOMAIN ;;
        if r =? -1 then
          e <- get_errno ;;
          r <- closeFdAndSetErrno acceptedSocket (int_neg e) ;;
          ret (r, addr', addrlen')
        else mark family
    end.

(** The local [const bool shouldSetFwmark] of [netdClientConnect]:
    [(sockfd >= 0) && addr && FwmarkClient::shouldSetFwmark(addr->sa_family)]. *)
Definition connectShouldSetFwmark (sockfd : Z) (addr : option sockaddr) : bool :=
  (sockfd >=? 0) &&
  match addr with
  | Some a => shouldSetFwmark (sa_family a)
  | None => false
  end.

(** The connection attempt of [netdClientConnect], between [int ret = -1]
    and the save of [errno]: through the dispatch table for a family that
    is marked when [USE_WRAPPER] is defined and the table has an entry,
    through libc otherwise. *)
Definition attemptConnect (sockfd : Z) (addr : option sockaddr)
    (addrlen : Z) : M Z :=
  if USE_WRAPPER then
    a <- deref addr ;;
    if shouldSetFwmark (sa_family a) then
      hooked <- propConnect_is_set ;;
      if hooked then call_propConnect sockfd addr addrlen
      else call_libcConnect sockfd addr addrlen
    else call_libcConnect sockfd addr addrlen
  else call_libcConnect sockfd addr addrlen.

Definition netdClientConnect (sockfd : Z) (addr : option sockaddr)
    (addrlen : Z) : M Z :=
  let shouldSetFwmark' := connectShouldSetFwmark sockfd addr in
  let connect_and_report : M Z :=
    s <- Stopwatch_start ;;
    ret' <- attemptConnect sockfd addr addrlen ;;
    connectErrno <- get_errno ;;
    taken <- Stopwatch_read s ;;
    let latencyMs := to_unsigned taken in
    match addr with
    | Some a =>
        if shouldSetFwmark' && shouldReportConnectComplete (sa_family a) then
          let connectInfo :=
            mk_FwmarkConnectInfo (if ret' =? 0 then 0 else connectErrno)
              latencyMs a in
          let command := mk_FwmarkCommand ON_CONNECT_COMPLETE 0 0 in
          call_send command sockfd (Some connectInfo) ;;;
          ret tt
        else ret tt
    | None => ret tt
    end ;;;
    set_errno connectErrno ;;;
    ret ret' in
  if shouldSetFwmark' then
    let command := mk_FwmarkCommand ON_CONNECT 0 0 in
    error <- call_send command sockfd None ;;
    if negb (error =? 0) then
      set_errno (int_neg error) ;;;
      ret (-1)
    else connect_and_report
  else connect_and_report.

(** The socket creation of [netdClientSocket]: through libc when
    [USE_WRAPPER] is not defined; otherwise through the dispatch table when
    it has an entry, and through libc when it has none. *)
Definition createSocket (domain type protocol : Z) : M Z :=
  if negb USE_WRAPPER then call_libcSocket domain type protocol
  else
    hooked <- propSocket_is_set ;;
    if hooked then call_propSocket domain type protocol
    else call_libcSocket domain type protocol.

Definition netdClientSocket (domain type protocol : Z) : M Z :=
  socketFd <- createSocket domain type protocol ;;
  if socketFd =? -1 then ret (-1)
  else
    netId <- load ForProcess ;;
    if negb (netId =? NETID_UNSET) && shouldSetFwmark domain then
      error <- setNetworkForSocket netId socketFd ;;
      if negb (error =? 0) then closeFdAndSetErrno socketFd error
      else ret socketFd
    else ret socketFd.

Definition getNetworkForResolv (netId : Z) : M Z :=
  if negb (netId =? NETID_UNSET) then ret netId
  else
    netId <- load ForProcess ;;
    if negb (netId =? NETID_UNSET) then ret netId
    else load ForResolv.

(** The probe of [setNetworkForTarget]:
    [if (libcSocket) socketFd = libcSocket(AF_INET6, SOCK_DGRAM | SOCK_CLOEXEC, 0);
     else socketFd = socket(AF_INET6, SOCK_DGRAM | SOCK_CLOEXEC, 0);] *)
Definition probeSocket : M Z :=
  installed <- libcSocket_is_set ;;
  if installed then call_libcSocket AF_INET6 (Z.lor SOCK_DGRAM SOCK_CLOEXEC) 0
  else call_socket AF_INET6 (Z.lor SOCK_DGRAM SOCK_CLOEXEC) 0.

Definition setNetworkForTarget (netId : Z) (target : Target) : M Z :=
  if netId =? NETID_UNSET then
    store target netId ;;;
    ret 0
  else
    socketFd <- probeSocket ;;
    if socketFd <? 0 then
      e <- get_errno ;;
      ret (int_neg e)
    else
      error <- setNetworkForSocket netId socketFd ;;
      (if error =? 0 then store target netId else ret tt) ;;;
      call_close socketFd ;;;
      ret error.

(** [getNetworkForSocket(unsigned* netId, int socketFd)]: the result and
    what [*netId] holds afterwards. *)
Definition getNetworkForSocket (netId : option Z) (socketFd : Z)
    : M (Z * option Z) :=
  match netId with
  | None => ret (int_neg EBADF, netId)
  | Some _ =>
      if socketFd <? 0 then ret (int_neg EBADF, netId)
      else
        '(r, intValue) <- call_getsockopt socketFd SOL_SOCKET SO_MARK ;;
        if r =? -1 then
          e <- get_errno ;;
          ret (int_neg e, netId)
        else ret (0, Some (Fwmark_netId intValue))
  end.

Definition getNetworkForProcess : M Z := load ForProcess.

Definition setNetworkForProcess (netId : Z) : M Z :=
  setNetworkForTarget netId ForProcess.

Definition setNetworkForResolv (netId : Z) : M Z :=
  setNetworkForTarget netId ForResolv.

Definition protectFromVpn (socketFd : Z) : M Z :=
  if socketFd <? 0 then ret (int_neg EBADF)
  else
    let command := mk_FwmarkCommand PROTECT_FROM_VPN 0 0 in
    call_send command socketFd None.

Definition setNetworkForUser (uid socketFd : Z) : M Z :=
  if socketFd <? 0 then ret (int_neg EBADF)
  else
    let command := mk_FwmarkCommand SELECT_FOR_USER 0 uid in
    call_send command socketFd None.

Definition queryUserAccess (uid netId : Z) : M Z :=
  let command := mk_FwmarkCommand QUERY_USER_ACCESS netId uid in
  call_send command (-1) None.

End NetdClient.

Arguments World K : clear implicits.
Arguments M K A : clear implicits.

(** ** What the specification says of name-resolution lookups

    "Resolution precedence is (1) an explicitly supplied identifier if not
    unset, else (2) the process-pinned network if set, else (3) the
    resolver-pinned network, else unset." *)
Definition resolveNetworkForLookup_spec (explicitId processPinned resolverPinned : Z) : Z :=
  if negb (explicitId =? NETID_UNSET) then explicitId
  else if negb (processPinned =? NETID_UNSET) then processPinned
  else if negb (resolverPinned =? NETID_UNSET) then resolverPinned
  else NETID_UNSET.

(** ** Vocabulary for the wrapped [connect] *)

Section Connect.

Context {K : Type} {P : Platform K}.

(** The wrapped [connect] gets as far as the connection attempt, which
    then runs in world [w0]: either nothing is to be marked, or the
    ON_CONNECT exchange answered 0 and left [w0]. *)
Definition reaches_connect (sockfd : Z) (addr : option sockaddr)
    (w w0 : World K) : Prop :=
  (connectShouldSetFwmark sockfd addr = false /\ w0 = w) \/
  (connectShouldSetFwmark sockfd addr = true /\
   call_send (mk_FwmarkCommand ON_CONNECT 0 0) sockfd None w = Some (0, w0)).

(** Whether the wrapped [connect] reports completion:
    [shouldSetFwmark && FwmarkClient::shouldReportConnectComplete(addr->sa_family)]. *)
Definition reportsConnectComplete (sockfd : Z) (addr : option sockaddr) : bool :=
  match addr with
  | Some a =>
      connectShouldSetFwmark sockfd addr &&
      shouldReportConnectComplete (sa_family a)
  | None => false
  end.

End Connect.

(** ** Vocabulary for what a run leaves alone *)

Definition is_close (e : Event) : bool :=
  match e with
  | EvClose _ _ => true
  | _ => false
  end.

Section Frames.

Context {K : Type}.

(** The captured entry points and the dispatch table are the same in both
    worlds. *)
Definition same_hooks (w w' : World K) : Prop :=
  libcAccept4 w' = libcAccept4 w /\
  libcConnect w' = libcConnect w /\
  libcSocket w' = libcSocket w /\
  propClientDispatch w' = propClientDispatch w.

(** The two pinned networks are the same in both worlds. *)
Definition same_slots (w w' : World K) : Prop :=
  netIdForProcess w' = netIdForProcess w /\
  netIdForResolv w' = netIdForResolv w.

(** Everything the file owns is the same in both worlds. *)
Definition unchanged (w w' : World K) : Prop :=
  same_slots w w' /\ same_hooks w w'.

(** Every run of [m] that has an outcome relates its two worlds by [R]. *)
Definition kept {A : Type} (R : World K -> World K -> Prop) (m : M K A) : Prop :=
  forall w a w', m w = Some (a, w') -> R w w'.

(** The log of [w'] is the log of [w] followed by [calls]. *)
Definition gained (w w' : World K) (calls : list Event) : Prop :=
  trace w' = trace w ++ calls.

End Frames.

Section Accepted.

Context {K : Type} {P : Platform K}.

(** What [netdClientAccept4] does once the family of the accepted socket is
    known (from [if (FwmarkClient::shouldSetFwmark(family))] to the final
    [return acceptedSocket]), with the caller's buffers as [accept4] left
    them. *)
Definition markAccepted (acceptedSocket : Z) (addr' : option sockaddr)
    (addrlen' : option Z) (family : Z) : M K (Z * option sockaddr * option Z) :=
  if shouldSetFwmark family then
    bind (call_send (mk_FwmarkCommand ON_ACCEPT 0 0) acceptedSocket None)
      (fun error =>
         if negb (error =? 0) then
           bind (closeFdAndSetErrno acceptedSocket error)
             (fun r => ret (r, addr', addrlen'))
         else ret (acceptedSocket, addr', addrlen'))
  else ret (acceptedSocket, addr', addrlen').

End Accepted.

Section Installed.

Context {K : Type}.

(** The three installers have run: every captured entry point is set. *)
Definition installed (w : World K) : Prop :=
  libcAccept4 w <> None /\ libcConnect w <> None /\ libcSocket w <> None.

(** From an installed world, [m] has an outcome, in an installed world. *)
Definition runs {A : Type} (m : M K A) : Prop :=
  forall w, installed w -> exists a w', m w = Some (a, w') /\ installed w'.

(** The world in which [*target] holds [netId]; it is the world
    [*target = netId] leaves. *)
Definition pinned_to (target : Target) (netId : Z) (w : World K) : World K :=
  match target with
  | ForProcess =>
      mk_World (sys w) netId (netIdForResolv w)
        (libcAccept4 w) (libcConnect w) (libcSocket w)
        (propClientDispatch w) (trace w)
  | ForResolv =>
      mk_World (sys w) (netIdForProcess w) netId
        (libcAccept4 w) (libcConnect w) (libcSocket w)
        (propClientDispatch w) (trace w)
  end.

(** The outcome of [m] with [*target] holding [netId] is its outcome
    without, in a world that differs in that slot alone: [m] does not read
    the slot. *)
Definition blind_to {A : Type} (target : Target) (m : M K A) : Prop :=
  forall (netId : Z) (w : World K),
    m (pinned_to target netId w) =
      match m w with
      | Some (a, w') => Some (a, pinned_to target netId w')
      | None => None
      end.

End Installed.

(** The same platform compiled the other way. *)
Definition with_USE_WRAPPER {K : Type} (defined : bool) (P : Platform K)
    : Platform K := {|
  USE_WRAPPER := defined;
  shouldSetFwmark := @shouldSetFwmark K P;
  shouldReportConnectComplete := @shouldReportConnectComplete K P;
  FwmarkClient_send := @FwmarkClient_send K P;
  socket := @socket K P;
  close := @close K P;
  getsockopt := @getsockopt K P;
  Stopwatch_timeTaken := @Stopwatch_timeTaken K P;
  Fwmark_netId := @Fwmark_netId K P
|}.

(** ** A concrete platform, to run the functions on

    The kernel keeps the list of open descriptors; the daemon answers each
    command kind with a status the test chooses, and spoils [errno] while
    doing so.  Both IP families are marked; completion is reported for
    IPv6 destinations only. *)
Module Demo.

Record kernel_state : Type := mk_kernel {
  open_fds : list Z;
  daemon_status : CmdId -> Z
}.

Definition is_open (fd : Z) (k : kernel_state) : bool :=
  existsb (Z.eqb fd) (open_fds k).

Definition fresh_fd (k : kernel_state) : Z :=
  1 + fold_right Z.max 2 (open_fds k).

Definition opening (fd : Z) (k : kernel_state) : kernel_state :=
  mk_kernel (fd :: open_fds k) (daemon_status k).

Definition closing (fd : Z) (k : kernel_state) : kernel_state :=
  mk_kernel (filter (fun x => negb (x =? fd)) (open_fds k)) (daemon_status k).

Definition is_inet (family : Z) : bool := (family =? 2) || (family =? 10).

Definition demo_socket : SocketFunctionType kernel_state :=
  fun domain _ _ s =>
    if is_inet domain || (domain =? 1) then
      let fd := fresh_fd (kernel s) in
      (fd, mk_Sys (errno s) (opening fd (kernel s)))
    else (-1, with_errno 97 s).

Definition demo_close (fd : Z) (s : Sys kernel_state) : Z * Sys kernel_state :=
  if is_open fd (kernel s) then (0, mk_Sys (errno s) (closing fd (kernel s)))
  else (-1, with_errno 9 s).

Definition demo_getsockopt (fd level optname : Z) (s : Sys kernel_state)
    : (Z * Z) * Sys kernel_state :=
  if is_open fd (kernel s) then
    if optname =? SO_DOMAIN then (0, 10, s)
    else if optname =? SO_MARK then (0, 65636, s)
    else (-1, 0, with_errno 92 s)
  else (-1, 0, with_errno 9 s).

Definition demo_send (command : FwmarkCommand) (fd : Z)
    (info : option FwmarkConnectInfo) (s : Sys kernel_state)
    : Z * Sys kernel_state :=
  (daemon_status (kernel s) (cmd_cmdId command), with_errno 11 s).

Definition demo_connect : ConnectFunctionType kernel_state :=
  fun sockfd addr _ s =>
    match addr with
    | None => (-1, with_errno 14 s)
    | Some a =>
        if is_open sockfd (kernel s) then
          if sa_family a =? 1 then (-1, with_errno 111 s) else (0, s)
        else (-1, with_errno 9 s)
    end.

Definition peer : sockaddr := mk_sockaddr 10 [0; 80].

Definition demo_accept4 : Accept4FunctionType kernel_state :=
  fun sockfd _ _ _ s =>
    if is_open sockfd (kernel s) then
      let fd := fresh_fd (kernel s) in
      (fd, peer, 28, mk_Sys (errno s) (opening fd (kernel s)))
    else (-1, peer, 0, with_errno 9 s).

(** The vendor's connect and socket: as libc's, but refused with EPERM (1)
    on an IPv4 destination, respectively for an IPv4 socket. *)
Definition vendor_connect : ConnectFunctionType kernel_state :=
  fun sockfd addr addrlen s =>
    match addr with
    | Some a =>
        if sa_family a =? 2 then (-1, with_errno 1 s)
        else demo_connect sockfd addr addrlen s
    | None => demo_connect sockfd addr addrlen s
    end.

Definition vendor_socket : SocketFunctionType kernel_state :=
  fun domain type protocol s =>
    if domain =? 2 then (-1, with_errno 1 s)
    else demo_socket domain type protocol s.

Definition platform_of (wrapper : bool) : Platform kernel_state := {|
  USE_WRAPPER := wrapper;
  shouldSetFwmark := is_inet;
  shouldReportConnectComplete := fun family => family =? 10;
  FwmarkClient_send := demo_send;
  socket := demo_socket;
  close := demo_close;
  getsockopt := demo_getsockopt;
  Stopwatch_timeTaken := fun _ _ => 5;
  Fwmark_netId := fun v => Z.land v 65535
|}.

(** The build without [USE_WRAPPER], and the build with it. *)
Definition platform : Platform kernel_state := platform_of false.
Definition wrapper_platform : Platform kernel_state := platform_of true.

(** The daemon grants everything, or refuses one kind of command. *)
Definition granting : CmdId -> Z := fun _ => 0.

Definition refusing (c : CmdId) (status : Z) : CmdId -> Z :=
  fun c' => if CmdId_eqb c' c then status else 0.

(** A process with the three hooks installed, descriptor 3 open, the
    given pinned networks, and an empty dispatch table. *)
Definition world (forProcess forResolv : Z) (daemon : CmdId -> Z)
    : World kernel_state :=
  mk_World (mk_Sys 0 (mk_kernel [3] daemon)) forProcess forResolv
    (Some demo_accept4) (Some demo_connect) (Some demo_socket)
    (mk_PropClientDispatch None None) [].

(** The same process with the vendor's entries in the dispatch table. *)
Definition vendor_world (forProcess forResolv : Z) (daemon : CmdId -> Z)
    : World kernel_state :=
  mk_World (mk_Sys 0 (mk_kernel [3] daemon)) forProcess forResolv
    (Some demo_accept4) (Some demo_connect) (Some demo_socket)
    (mk_PropClientDispatch (Some vendor_connect) (Some vendor_socket)) [].

Definition inet_addr : sockaddr := mk_sockaddr 2 [0; 80; 127; 0; 0; 1].
Definition inet6_addr : sockaddr := mk_sockaddr 10 [0; 80; 0; 0; 0; 1].
Definition unix_addr : sockaddr := mk_sockaddr 1 [47; 116; 109; 112].

(** What a run lets a caller see: the result, [errno], the open
    descriptors, the two slots and the log. *)
Definition observe {A : Type} (run : option (A * World kernel_state))
    : option (A * Z * list Z * (Z * Z) * list Event) :=
  match run with
  | Some (a, w) =>
      Some (a, errno (sys w), open_fds (kernel (sys w)),
            (netIdForProcess w, netIdForResolv w), trace w)
  | None => None
  end.

(** A process whose environment switches marking off: no family
    qualifies. *)
Definition unmarked_platform : Platform kernel_state := {|
  USE_WRAPPER := false;
  shouldSetFwmark := fun _ => false;
  shouldReportConnectComplete := fun _ => false;
  FwmarkClient_send := demo_send;
  socket := demo_socket;
  close := demo_close;
  getsockopt := demo_getsockopt;
  Stopwatch_timeTaken := fun _ _ => 5;
  Fwmark_netId := fun v => Z.land v 65535
|}.

(** A kernel that does not know SO_DOMAIN and SO_MARK: [getsockopt] fails
    with ENOPROTOOPT (92). *)
Definition optionless_platform : Platform kernel_state := {|
  USE_WRAPPER := false;
  shouldSetFwmark := is_inet;
  shouldReportConnectComplete := fun family => family =? 10;
  FwmarkClient_send := demo_send;
  socket := demo_socket;
  close := demo_close;
  getsockopt := fun _ _ _ s => (-1, 0, with_errno 92 s);
  Stopwatch_timeTaken := fun _ _ => 5;
  Fwmark_netId := fun v => Z.land v 65535
|}.

End Demo.

(** * Properties *)

Section Properties.

Context {K : Type} {P : Platform K}.

Implicit Types (w : World K) (s : Sys K).

Notation "x <- m ;; k" := (bind m (fun x => k))
  (at level 61, m at next level, right associativity).
Notation "m ;;; k" := (bind m (fun _ => k))
  (at level 61, right associativity).

(** ** Integers *)

Lemma int_neg_exact (z : Z) : INT_MIN < z <= INT_MAX -> int_neg z = - z.
Proof.
  unfold INT_MIN, INT_MAX, int_neg, wrap_int. intros Hz.
  rewrite Z.mod_small; lia.
Qed.

Lemma int_neg_EBADF : int_neg EBADF = -9.
Proof. reflexivity. Qed.

Lemma int_neg_involutive (z : Z) : INT_MIN <= z <= INT_MAX -> int_neg (int_neg z) = z.
Proof.
  unfold INT_MIN, INT_MAX. intros Hz.
  destruct (Z.eq_dec z (- 2 ^ 31)) as [-> | Hne]; [reflexivity |].
  rewrite (int_neg_exact z) by (unfold INT_MIN, INT_MAX; lia).
  rewrite int_neg_exact by (unfold INT_MIN, INT_MAX; lia). lia.
Qed.

(** ** Worlds *)

Lemma with_errno_same s : with_errno (errno s) s = s.
Proof. destruct s; reflexivity. Qed.

Lemma with_sys_same w : with_sys (sys w) w = w.
Proof. destruct w; reflexivity. Qed.

Lemma restore_errno w : with_sys (with_errno (errno (sys w)) (sys w)) w = w.
Proof. rewrite with_errno_same. apply with_sys_same. Qed.

(** ** Primitive steps *)

Ltac step := unfold bind, ret, get_errno, set_errno, load, store; simpl.

Lemma closeFdAndSetErrno_run (fd error : Z) w :
  closeFdAndSetErrno fd error w =
    Some (-1, with_sys (with_errno (int_neg error) (snd (close fd (sys w))))
                (log (EvClose fd (fst (close fd (sys w)))) w)).
Proof.
  unfold closeFdAndSetErrno, call_close. step.
  destruct (close fd (sys w)) as [r s']. reflexivity.
Qed.

Lemma call_send_run (command : FwmarkCommand) (fd : Z)
    (info : option FwmarkConnectInfo) w :
  call_send command fd info w =
    Some (fst (FwmarkClient_send command fd info (sys w)),
          log (EvSend command fd info
                 (fst (FwmarkClient_send command fd info (sys w))))
            (with_sys (snd (FwmarkClient_send command fd info (sys w))) w)).
Proof.
  unfold call_send.
  destruct (FwmarkClient_send command fd info (sys w)) as [r s']. reflexivity.
Qed.

Lemma call_send_trace (command : FwmarkCommand) (fd : Z)
    (info : option FwmarkConnectInfo) w (status : Z) w' :
  call_send command fd info w = Some (status, w') ->
  trace w' = trace w ++ [EvSend command fd info status] /\
  netIdForProcess w' = netIdForProcess w /\
  netIdForResolv w' = netIdForResolv w /\
  libcConnect w' = libcConnect w.
Proof.
  rewrite call_send_run. intros H. injection H as <- <-. repeat split.
Qed.

(** ** Name-resolution lookups *)

(** C4. [getNetworkForResolv] changes nothing and returns what the
    specification's precedence prescribes: the explicit identifier unless
    it is unset, else the process slot unless it is unset, else the
    resolver slot (which is the unset identifier when that slot is unset
    too).  The four sample lookups of the specification come out as 5, 7,
    9 and unset. *)
Theorem getNetworkForResolv_precedence :
  (forall (netId : Z) w,
     getNetworkForResolv netId w =
       Some (resolveNetworkForLookup_spec netId (netIdForProcess w)
               (netIdForResolv w), w)) /\
  (forall s a c so pd tr,
     getNetworkForResolv 5 (mk_World s 7 9 a c so pd tr)
       = Some (5, mk_World s 7 9 a c so pd tr) /\
     getNetworkForResolv NETID_UNSET (mk_World s 7 9 a c so pd tr)
       = Some (7, mk_World s 7 9 a c so pd tr) /\
     getNetworkForResolv NETID_UNSET (mk_World s NETID_UNSET 9 a c so pd tr)
       = Some (9, mk_World s NETID_UNSET 9 a c so pd tr) /\
     getNetworkForResolv NETID_UNSET
         (mk_World s NETID_UNSET NETID_UNSET a c so pd tr)
       = Some (NETID_UNSET, mk_World s NETID_UNSET NETID_UNSET a c so pd tr)).
Proof.
  split.
  - intros netId w.
    unfold getNetworkForResolv, resolveNetworkForLookup_spec. step.
    destruct (netId =? NETID_UNSET); simpl; [| reflexivity].
    destruct (netIdForProcess w =? NETID_UNSET); simpl; [| reflexivity].
    destruct (netIdForResolv w =? NETID_UNSET) eqn:E; simpl; [| reflexivity].
    apply Z.eqb_eq in E. now rewrite E.
  - intros. repeat split.
Qed.

(** ** Public marking entry points *)

(** C7. Given a negative descriptor, [setNetworkForSocket],
    [protectFromVpn], [setNetworkForUser] and [getNetworkForSocket] return
    [-EBADF] in an unchanged world: nothing was sent to the daemon, no
    external call was made at all, and [*netId] is left as it was. *)
Theorem negative_descriptor_is_EBADF (socketFd : Z) w :
  socketFd < 0 ->
  (forall netId, setNetworkForSocket netId socketFd w = Some (- EBADF, w)) /\
  protectFromVpn socketFd w = Some (- EBADF, w) /\
  (forall uid, setNetworkForUser uid socketFd w = Some (- EBADF, w)) /\
  (forall netId, getNetworkForSocket netId socketFd w = Some ((- EBADF, netId), w)).
Proof.
  intros Hneg. apply Z.ltb_lt in Hneg.
  unfold setNetworkForSocket, protectFromVpn, setNetworkForUser,
    getNetworkForSocket.
  rewrite Hneg. repeat split. intros [v |]; reflexivity.
Qed.

(** C9. [queryUserAccess uid netId] performs exactly one exchange: the
    command [{QUERY_USER_ACCESS, netId, uid}] sent with descriptor [-1]
    (no descriptor) and no connect info; what the daemon answers is what
    the function returns. *)
Theorem queryUserAccess_sends_without_descriptor (uid netId : Z) w :
  let command := mk_FwmarkCommand QUERY_USER_ACCESS netId uid in
  let reply := FwmarkClient_send command (-1) None (sys w) in
  exists w',
    queryUserAccess uid netId w = Some (fst reply, w') /\
    trace w' = trace w ++ [EvSend command (-1) None (fst reply)] /\
    sys w' = snd reply.
Proof.
  intros command reply. unfold queryUserAccess. rewrite call_send_run.
  fold command. fold reply. eexists. repeat split.
Qed.

(** ** The wrapped [socket] *)

Lemma setNetworkForSocket_run (netId socketFd : Z) w :
  0 <= socketFd ->
  setNetworkForSocket netId socketFd w =
    call_send (mk_FwmarkCommand SELECT_NETWORK netId 0) socketFd None w.
Proof.
  intros Hfd. unfold setNetworkForSocket.
  now rewrite (proj2 (Z.ltb_ge socketFd 0) Hfd).
Qed.

Lemma createSocket_trace (domain type protocol : Z) w (socketFd : Z) w1 :
  createSocket domain type protocol w = Some (socketFd, w1) ->
  trace w1 = trace w ++ [EvLibcSocket domain type protocol socketFd] \/
  (USE_WRAPPER = true /\
   trace w1 = trace w ++ [EvPropSocket domain type protocol socketFd]).
Proof.
  assert (Hlibc : call_libcSocket domain type protocol w = Some (socketFd, w1) ->
                  trace w1 = trace w ++ [EvLibcSocket domain type protocol socketFd]).
  { unfold call_libcSocket. destruct (libcSocket w) as [f |]; [| discriminate].
    destruct (f domain type protocol (sys w)) as [r s']. intros H.
    now injection H as <- <-. }
  unfold createSocket. destruct USE_WRAPPER; cbn [negb]; [| now intros H; left; auto].
  unfold bind, propSocket_is_set, call_propSocket.
  destruct (propSocket (propClientDispatch w)) as [f |] eqn:Hf;
    [| now intros H; left; auto].
  rewrite Hf. destruct (f domain type protocol (sys w)) as [r s']. intros H.
  injection H as <- <-. right. now split.
Qed.

Lemma createSocket_libc (domain type protocol : Z) w :
  USE_WRAPPER = false \/ propSocket (propClientDispatch w) = None ->
  createSocket domain type protocol w = call_libcSocket domain type protocol w.
Proof.
  unfold createSocket. intros [-> | Hnone]; [reflexivity |].
  destruct USE_WRAPPER; [| reflexivity]. cbn [negb].
  unfold bind, propSocket_is_set. now rewrite Hnone.
Qed.

(** C1. Let the socket creation of the wrapper (the original [socket];
    only in a build with [USE_WRAPPER] and an entry in the dispatch table,
    that entry) return a descriptor other than -1.
    - If a process network is pinned, the domain qualifies for marking and
      [setNetworkForSocket] (the SELECT_NETWORK mark-apply, one daemon
      exchange on a non-negative descriptor) yields a nonzero status, the
      wrapper returns -1 with [errno] the [int] negation of that status,
      and the last thing it did outside was to close the new descriptor.
    - If no network is pinned or the domain does not qualify, the wrapper
      returns the descriptor in the world the creation left: the creation
      was the only external call, and it is not a daemon exchange. *)
Theorem netdClientSocket_marking (domain type protocol : Z) w (socketFd : Z) w1 :
  createSocket domain type protocol w = Some (socketFd, w1) ->
  socketFd <> -1 ->
  (forall (error : Z) w2,
     netIdForProcess w1 <> NETID_UNSET ->
     shouldSetFwmark domain = true ->
     setNetworkForSocket (netIdForProcess w1) socketFd w1 = Some (error, w2) ->
     error <> 0 ->
     exists (closed : Z) w3,
       netdClientSocket domain type protocol w = Some (-1, w3) /\
       errno (sys w3) = int_neg error /\
       trace w3 = trace w2 ++ [EvClose socketFd closed] /\
       (0 <= socketFd ->
        trace w2 = trace w1 ++
          [EvSend (mk_FwmarkCommand SELECT_NETWORK (netIdForProcess w1) 0)
             socketFd None error])) /\
  (netIdForProcess w1 = NETID_UNSET \/ shouldSetFwmark domain = false ->
   netdClientSocket domain type protocol w = Some (socketFd, w1) /\
   exists created : Event,
     trace w1 = trace w ++ [created] /\ is_send created = false).
Proof.
  intros Hsock Hfd. apply Z.eqb_neq in Hfd. split.
  - intros error w2 Hpinned Hdomain Hmark Herror.
    apply Z.eqb_neq in Hpinned, Herror.
    exists (fst (close socketFd (sys w2))). eexists. split; [| split; [| split]].
    + unfold netdClientSocket, bind at 1. rewrite Hsock, Hfd.
      unfold bind at 1, load. rewrite Hpinned, Hdomain. cbn [negb andb].
      unfold bind. rewrite Hmark, Herror. cbn [negb].
      apply closeFdAndSetErrno_run.
    + reflexivity.
    + reflexivity.
    + intros Hnonneg. rewrite setNetworkForSocket_run in Hmark by assumption.
      now apply call_send_trace in Hmark.
  - intros Hskip. split.
    + unfold netdClientSocket, bind at 1. rewrite Hsock, Hfd.
      unfold bind, load, ret.
      destruct Hskip as [Hunset | Hdomain].
      * apply Z.eqb_eq in Hunset. now rewrite Hunset.
      * rewrite Hdomain. now rewrite andb_false_r.
    + destruct (createSocket_trace _ _ _ _ _ _ Hsock) as [Ht | [_ Ht]];
        eexists; (split; [exact Ht | reflexivity]).
Qed.

(** ** The wrapped [connect] *)

Lemma call_libcConnect_run (sockfd : Z) (addr : option sockaddr) (addrlen : Z)
    w (f : ConnectFunctionType K) :
  libcConnect w = Some f ->
  call_libcConnect sockfd addr addrlen w =
    Some (fst (f sockfd addr addrlen (sys w)),
          log (EvLibcConnect sockfd addr addrlen
                 (fst (f sockfd addr addrlen (sys w))))
            (with_sys (snd (f sockfd addr addrlen (sys w))) w)).
Proof.
  intros Hf. unfold call_libcConnect. rewrite Hf.
  destruct (f sockfd addr addrlen (sys w)) as [r s']. reflexivity.
Qed.

Lemma attemptConnect_libc (sockfd : Z) (addr : option sockaddr) (addrlen : Z) w :
  USE_WRAPPER = false ->
  attemptConnect sockfd addr addrlen w = call_libcConnect sockfd addr addrlen w.
Proof. unfold attemptConnect. now intros ->. Qed.

Lemma attemptConnect_trace (sockfd : Z) (addr : option sockaddr)
    (addrlen : Z) w (result : Z) w' :
  attemptConnect sockfd addr addrlen w = Some (result, w') ->
  trace w' = trace w ++ [EvLibcConnect sockfd addr addrlen result] \/
  (USE_WRAPPER = true /\
   trace w' = trace w ++ [EvPropConnect sockfd addr addrlen result]).
Proof.
  assert (Hlibc : call_libcConnect sockfd addr addrlen w = Some (result, w') ->
                  trace w' = trace w ++ [EvLibcConnect sockfd addr addrlen result]).
  { unfold call_libcConnect. destruct (libcConnect w) as [f |]; [| discriminate].
    destruct (f sockfd addr addrlen (sys w)) as [r s']. intros H.
    now injection H as <- <-. }
  unfold attemptConnect. destruct USE_WRAPPER; [| now intros H; left; auto].
  unfold bind at 1, deref. destruct addr as [a |]; [| discriminate].
  destruct (shouldSetFwmark (sa_family a)); [| now intros H; left; auto].
  unfold bind, propConnect_is_set, call_propConnect.
  destruct (propConnect (propClientDispatch w)) as [f |] eqn:Hf;
    [| now intros H; left; auto].
  rewrite Hf. destruct (f sockfd (Some a) addrlen (sys w)) as [r s']. intros H.
  injection H as <- <-. right. now split.
Qed.

(** From the connection attempt on: the wrapper returns what the attempt
    returned, with the [errno] that it left; in between it has sent one
    ON_CONNECT_COMPLETE when completion is to be reported, and has done
    nothing at all otherwise. *)
Lemma netdClientConnect_from_connect (sockfd : Z) (addr : option sockaddr)
    (addrlen : Z) w w0 (result : Z) w1 :
  reaches_connect sockfd addr w w0 ->
  attemptConnect sockfd addr addrlen w0 = Some (result, w1) ->
  exists w2,
    netdClientConnect sockfd addr addrlen w = Some (result, w2) /\
    errno (sys w2) = errno (sys w1) /\
    ((reportsConnectComplete sockfd addr = false /\ w2 = w1) \/
     (reportsConnectComplete sockfd addr = true /\
      exists (a : sockaddr) (status : Z),
        addr = Some a /\
        trace w2 = trace w1 ++
          [EvSend (mk_FwmarkCommand ON_CONNECT_COMPLETE 0 0) sockfd
             (Some (mk_FwmarkConnectInfo
                      (if result =? 0 then 0 else errno (sys w1))
                      (to_unsigned (Stopwatch_timeTaken (sys w0) (sys w1)))
                      a))
             status])).
Proof.
  intros Hreach Hconnect.
  assert (Hbody :
    exists w2,
      (s <- Stopwatch_start ;;
       ret' <- attemptConnect sockfd addr addrlen ;;
       connectErrno <- get_errno ;;
       taken <- Stopwatch_read s ;;
       match addr with
       | Some a =>
           if connectShouldSetFwmark sockfd addr &&
              shouldReportConnectComplete (sa_family a)
           then
             call_send (mk_FwmarkCommand ON_CONNECT_COMPLETE 0 0) sockfd
               (Some (mk_FwmarkConnectInfo
                        (if ret' =? 0 then 0 else connectErrno)
                        (to_unsigned taken) a)) ;;;
             ret tt
           else ret tt
       | None => ret tt
       end ;;;
       set_errno connectErrno ;;;
       ret ret') w0 = Some (result, w2) /\
      errno (sys w2) = errno (sys w1) /\
      ((reportsConnectComplete sockfd addr = false /\ w2 = w1) \/
       (reportsConnectComplete sockfd addr = true /\
        exists (a : sockaddr) (status : Z),
          addr = Some a /\
          trace w2 = trace w1 ++
            [EvSend (mk_FwmarkCommand ON_CONNECT_COMPLETE 0 0) sockfd
               (Some (mk_FwmarkConnectInfo
                        (if result =? 0 then 0 else errno (sys w1))
                        (to_unsigned (Stopwatch_timeTaken (sys w0) (sys w1)))
                        a))
               status]))).
  { unfold bind at 1, Stopwatch_start. unfold bind at 1. rewrite Hconnect.
    unfold bind at 1, get_errno. unfold bind at 1, Stopwatch_read.
    unfold reportsConnectComplete.
    destruct addr as [a |].
    - destruct (connectShouldSetFwmark sockfd (Some a) &&
                shouldReportConnectComplete (sa_family a)).
      + unfold bind. rewrite call_send_run. unfold ret, set_errno.
        eexists. split; [reflexivity |]. split; [reflexivity |].
        right. split; [reflexivity |]. eexists. eexists.
        split; reflexivity.
      + unfold bind, ret, set_errno. exists w1. rewrite restore_errno.
        split; [reflexivity |]. split; [reflexivity |]. now left.
    - unfold bind, ret, set_errno. exists w1. rewrite restore_errno.
      split; [reflexivity |]. split; [reflexivity |]. now left. }
  unfold netdClientConnect. cbv zeta.
  destruct Hreach as [[Hskip ->] | [Hmark Hsend]].
  - rewrite Hskip in *. exact Hbody.
  - rewrite Hmark in *. unfold bind at 1. rewrite Hsend. cbn [Z.eqb negb].
    exact Hbody.
Qed.

Lemma connectShouldSetFwmark_false (sockfd : Z) (addr : option sockaddr) :
  sockfd < 0 \/ addr = None -> connectShouldSetFwmark sockfd addr = false.
Proof.
  unfold connectShouldSetFwmark. intros [Hneg | ->].
  - replace (sockfd >=? 0) with false; [reflexivity |].
    symmetry. rewrite Z.geb_leb. apply Z.leb_gt. exact Hneg.
  - apply andb_false_r.
Qed.

Lemma call_libcConnect_trace (sockfd : Z) (addr : option sockaddr)
    (addrlen : Z) w (result : Z) w' :
  call_libcConnect sockfd addr addrlen w = Some (result, w') ->
  trace w' = trace w ++ [EvLibcConnect sockfd addr addrlen result].
Proof.
  unfold call_libcConnect. destruct (libcConnect w) as [f |]; [| discriminate].
  destruct (f sockfd addr addrlen (sys w)) as [r s'].
  intros H. now injection H as <- <-.
Qed.

(** C2. A destination that qualifies for marking (non-negative descriptor,
    non-null address of a qualifying family) whose ON_CONNECT exchange
    answers a nonzero status: the wrapper returns -1 with [errno] the [int]
    negation of that status, and the exchange is the only external call it
    made, so no [connect] was invoked, neither the original one nor one
    from the dispatch table. *)
Theorem netdClientConnect_on_connect_refused (sockfd : Z) (a : sockaddr)
    (addrlen : Z) w (error : Z) w1 :
  0 <= sockfd ->
  shouldSetFwmark (sa_family a) = true ->
  call_send (mk_FwmarkCommand ON_CONNECT 0 0) sockfd None w = Some (error, w1) ->
  error <> 0 ->
  exists w2,
    netdClientConnect sockfd (Some a) addrlen w = Some (-1, w2) /\
    errno (sys w2) = int_neg error /\
    trace w2 = trace w ++ [EvSend (mk_FwmarkCommand ON_CONNECT 0 0) sockfd None error] /\
    existsb is_connect (trace w2) = existsb is_connect (trace w).
Proof.
  intros Hfd Hfamily Hsend Herror. apply Z.eqb_neq in Herror.
  assert (Hmark : connectShouldSetFwmark sockfd (Some a) = true).
  { unfold connectShouldSetFwmark. rewrite Hfamily, andb_true_r.
    rewrite Z.geb_leb. now apply Z.leb_le. }
  unfold netdClientConnect. cbv zeta. rewrite Hmark.
  unfold bind at 1. rewrite Hsend, Herror. cbn [negb].
  unfold bind, set_errno, ret. eexists. split; [reflexivity |].
  apply call_send_trace in Hsend. destruct Hsend as (Htrace & _).
  cbn [sys trace with_sys errno with_errno]. rewrite Htrace.
  split; [reflexivity |]. split; [reflexivity |].
  rewrite existsb_app. cbn. now rewrite !orb_false_r.
Qed.

(** C5. Once the wrapper reaches the connection attempt, what the caller
    sees is the attempt's own outcome: its return value, and the [errno] it
    left.  After the attempt the wrapper has either done nothing outside,
    or sent one ON_CONNECT_COMPLETE; whatever status that exchange produced
    (and whatever it did to [errno]) appears in neither. *)
Theorem netdClientConnect_outcome_is_connects (sockfd : Z)
    (addr : option sockaddr) (addrlen : Z) w w0 (result : Z) w1 :
  reaches_connect sockfd addr w w0 ->
  attemptConnect sockfd addr addrlen w0 = Some (result, w1) ->
  exists w2 (reported : list Event),
    netdClientConnect sockfd addr addrlen w = Some (result, w2) /\
    errno (sys w2) = errno (sys w1) /\
    trace w2 = trace w1 ++ reported /\
    (reported = [] \/
     exists (info : FwmarkConnectInfo) (status : Z),
       reported =
         [EvSend (mk_FwmarkCommand ON_CONNECT_COMPLETE 0 0) sockfd (Some info) status]).
Proof.
  intros Hreach Hconnect.
  destruct (netdClientConnect_from_connect _ _ _ _ _ _ _ Hreach Hconnect)
    as (w2 & Hrun & Herrno & [[_ ->] | [_ (a & status & _ & Htrace)]]).
  - exists w1, []. rewrite app_nil_r. repeat split; auto.
  - exists w2. eexists. repeat split; [exact Hrun | exact Herrno | exact Htrace |].
    right. eexists. eexists. reflexivity.
Qed.

(** C8. The connection attempt succeeds and the destination's family does
    not qualify for completion reporting: the wrapper returns 0 in the very
    world the attempt left, so nothing was sent after it, and no
    ON_CONNECT_COMPLETE appears among the calls of the whole invocation. *)
Theorem netdClientConnect_no_completion_report (sockfd : Z)
    (addr : option sockaddr) (addrlen : Z) w w0 w1 :
  reaches_connect sockfd addr w w0 ->
  attemptConnect sockfd addr addrlen w0 = Some (0, w1) ->
  (forall a, addr = Some a -> shouldReportConnectComplete (sa_family a) = false) ->
  netdClientConnect sockfd addr addrlen w = Some (0, w1) /\
  exists calls : list Event,
    trace w1 = trace w ++ calls /\
    existsb (is_send_of ON_CONNECT_COMPLETE) calls = false.
Proof.
  intros Hreach Hconnect Hfamily.
  assert (Hreports : reportsConnectComplete sockfd addr = false).
  { unfold reportsConnectComplete. destruct addr as [a |]; [| reflexivity].
    rewrite (Hfamily a eq_refl). apply andb_false_r. }
  destruct (netdClientConnect_from_connect _ _ _ _ _ _ _ Hreach Hconnect)
    as (w2 & Hrun & _ & [[_ ->] | [Hyes _]]); [| congruence].
  split; [exact Hrun |].
  apply attemptConnect_trace in Hconnect.
  destruct Hreach as [[_ ->] | [_ Hsend]].
  - destruct Hconnect as [Ht | [_ Ht]];
      eexists; (split; [exact Ht | reflexivity]).
  - apply call_send_trace in Hsend. destruct Hsend as (Htrace & _).
    destruct Hconnect as [Ht | [_ Ht]];
      rewrite Ht, Htrace, <- app_assoc;
      eexists; (split; reflexivity).
Qed.

(** With a negative descriptor or a null address the wrapper is the
    connection attempt and nothing else, whenever that attempt is defined. *)
Lemma netdClientConnect_unmarked (sockfd : Z) (addr : option sockaddr)
    (addrlen : Z) w (result : Z) w1 :
  sockfd < 0 \/ addr = None ->
  attemptConnect sockfd addr addrlen w = Some (result, w1) ->
  netdClientConnect sockfd addr addrlen w = Some (result, w1).
Proof.
  intros Hunmarked Hconnect.
  pose proof (connectShouldSetFwmark_false _ _ Hunmarked) as Hskip.
  assert (Hreach : reaches_connect sockfd addr w w) by (left; auto).
  assert (Hreports : reportsConnectComplete sockfd addr = false).
  { unfold reportsConnectComplete. destruct addr; [| reflexivity].
    now rewrite Hskip. }
  destruct (netdClientConnect_from_connect _ _ _ _ _ _ _ Hreach Hconnect)
    as (w2 & Hrun & _ & [[_ ->] | [Hyes _]]); [exact Hrun | congruence].
Qed.

(** Without [USE_WRAPPER], a negative descriptor or a null address and the
    original [connect] captured: the wrapper is that one call to [connect]
    and nothing else.  It returns [connect]'s result in the state [connect]
    left ([errno] included), and the log gains that call alone: nothing is
    exchanged with the daemon and no bad-descriptor error is made up. *)
Lemma netdClientConnect_unmarked_passthrough (sockfd : Z)
    (addr : option sockaddr) (addrlen : Z) w (f : ConnectFunctionType K) :
  USE_WRAPPER = false ->
  sockfd < 0 \/ addr = None ->
  libcConnect w = Some f ->
  exists w',
    netdClientConnect sockfd addr addrlen w =
      Some (fst (f sockfd addr addrlen (sys w)), w') /\
    sys w' = snd (f sockfd addr addrlen (sys w)) /\
    trace w' = trace w ++
      [EvLibcConnect sockfd addr addrlen (fst (f sockfd addr addrlen (sys w)))].
Proof.
  intros Hbuild Hunmarked Hf.
  pose proof (call_libcConnect_run sockfd addr addrlen w f Hf) as Hconnect.
  rewrite <- attemptConnect_libc in Hconnect by assumption.
  eexists. split; [exact (netdClientConnect_unmarked _ _ _ _ _ _ Hunmarked Hconnect) |].
  split; reflexivity.
Qed.

(** C10, where the code departs from it.  Compiled with [USE_WRAPPER], the
    wrapper given a null address reads [addr->sa_family] before any call to
    [connect]: whatever the descriptor and the world, the call has no
    defined outcome, and so forwards nothing and returns nothing. *)
Theorem netdClientConnect_null_address_with_wrapper (sockfd addrlen : Z) w :
  USE_WRAPPER = true ->
  netdClientConnect sockfd None addrlen w = None.
Proof.
  intros Hbuild. unfold netdClientConnect. cbv zeta.
  rewrite (connectShouldSetFwmark_false sockfd None (or_intror eq_refl)).
  unfold bind at 1, Stopwatch_start. unfold bind at 1, attemptConnect.
  rewrite Hbuild. reflexivity.
Qed.

(** ** The wrapped [accept4] *)

Lemma call_libcAccept4_buffer (sockfd : Z) (addr : option sockaddr)
    (addrlen : option Z) (flags : Z) w (acceptedSocket : Z)
    (addr' : option sockaddr) (addrlen' : option Z) w1 :
  call_libcAccept4 sockfd addr addrlen flags w
    = Some ((acceptedSocket, addr', addrlen'), w1) ->
  (addr = None <-> addr' = None) /\
  trace w1 = trace w ++ [EvLibcAccept4 sockfd addr addrlen flags acceptedSocket].
Proof.
  unfold call_libcAccept4. destruct (libcAccept4 w) as [f |]; [| discriminate].
  destruct (f sockfd addr addrlen flags (sys w)) as [[[r a] l] s'].
  intros H. injection H as <- <- <- <-. split; [| reflexivity].
  destruct addr; simpl; split; congruence.
Qed.

(** C6. Let the original [accept4] return a descriptor other than -1.
    - With an address buffer from the caller, the family is the
      [sa_family] the buffer holds after the call: no socket option is
      queried.
    - With no buffer, the family is what [getsockopt(SOL_SOCKET,
      SO_DOMAIN)] on the new descriptor delivers.
    In both cases, when the family qualifies for marking and the ON_ACCEPT
    exchange answers a nonzero status, the wrapper closes the accepted
    descriptor as its last external call and returns -1 with [errno] the
    [int] negation of that status. *)
Theorem netdClientAccept4_on_accept_refused (sockfd : Z)
    (addr : option sockaddr) (addrlen : option Z) (flags : Z) w
    (acceptedSocket : Z) (addr' : option sockaddr) (addrlen' : option Z) w1 :
  call_libcAccept4 sockfd addr addrlen flags w
    = Some ((acceptedSocket, addr', addrlen'), w1) ->
  acceptedSocket <> -1 ->
  (forall (a : sockaddr) (error : Z) w2,
     addr' = Some a ->
     shouldSetFwmark (sa_family a) = true ->
     call_send (mk_FwmarkCommand ON_ACCEPT 0 0) acceptedSocket None w1
       = Some (error, w2) ->
     error <> 0 ->
     exists (closed : Z) w3,
       netdClientAccept4 sockfd addr addrlen flags w
         = Some ((-1, addr', addrlen'), w3) /\
       errno (sys w3) = int_neg error /\
       trace w3 = trace w1 ++
         [EvSend (mk_FwmarkCommand ON_ACCEPT 0 0) acceptedSocket None error;
          EvClose acceptedSocket closed]) /\
  (forall (queried family : Z) wq (error : Z) w2,
     addr = None ->
     call_getsockopt acceptedSocket SOL_SOCKET SO_DOMAIN w1
       = Some ((queried, family), wq) ->
     queried <> -1 ->
     shouldSetFwmark family = true ->
     call_send (mk_FwmarkCommand ON_ACCEPT 0 0) acceptedSocket None wq
       = Some (error, w2) ->
     error <> 0 ->
     exists (closed : Z) w3,
       netdClientAccept4 sockfd addr addrlen flags w
         = Some ((-1, addr', addrlen'), w3) /\
       errno (sys w3) = int_neg error /\
       trace w3 = trace w1 ++
         [EvGetsockopt acceptedSocket SOL_SOCKET SO_DOMAIN queried family;
          EvSend (mk_FwmarkCommand ON_ACCEPT 0 0) acceptedSocket None error;
          EvClose acceptedSocket closed]).
Proof.
  intros Haccept Hfd. apply Z.eqb_neq in Hfd.
  destruct (call_libcAccept4_buffer _ _ _ _ _ _ _ _ _ Haccept) as [Hnull _].
  split.
  - intros a error w2 -> Hfamily Hsend Herror. apply Z.eqb_neq in Herror.
    exists (fst (close acceptedSocket (sys w2))). eexists.
    split; [| split].
    + unfold netdClientAccept4, bind at 1. rewrite Haccept. cbv beta iota zeta.
      rewrite Hfd, Hfamily. unfold bind at 1. rewrite Hsend, Herror. cbn [negb].
      unfold bind at 1. rewrite closeFdAndSetErrno_run. reflexivity.
    + reflexivity.
    + apply call_send_trace in Hsend. destruct Hsend as (Htrace & _).
      cbn [trace with_sys log]. rewrite Htrace, <- app_assoc. reflexivity.
  - intros queried family wq error w2 Hnone Hquery Hqueried Hfamily Hsend Herror.
    apply Z.eqb_neq in Hqueried, Herror.
    apply Hnull in Hnone. subst addr'.
    exists (fst (close acceptedSocket (sys w2))). eexists.
    split; [| split].
    + unfold netdClientAccept4, bind at 1. rewrite Haccept. cbv beta iota zeta.
      rewrite Hfd. unfold bind at 1. rewrite Hquery. cbv beta iota zeta.
      rewrite Hqueried, Hfamily. unfold bind at 1. rewrite Hsend, Herror.
      cbn [negb]. unfold bind at 1. rewrite closeFdAndSetErrno_run. reflexivity.
    + reflexivity.
    + apply call_send_trace in Hsend. destruct Hsend as (Htrace & _).
      cbn [trace with_sys log]. rewrite Htrace.
      unfold call_getsockopt in Hquery.
      destruct (getsockopt acceptedSocket SOL_SOCKET SO_DOMAIN (sys w1))
        as [[r v] s'].
      injection Hquery as <- <- <-. cbn [trace with_sys log].
      rewrite <- !app_assoc. reflexivity.
Qed.

(** X7. Without a buffer from the caller and with [getsockopt] returning
    -1, the accepted descriptor is closed as the last call and the wrapper
    returns -1; [errno] (any value of an [int]) is then the one
    [getsockopt] left, whatever [close] did to it in between. *)
Lemma netdClientAccept4_getsockopt_failure (sockfd : Z) (addrlen : option Z)
    (flags : Z) w (acceptedSocket : Z) (addr' : option sockaddr)
    (addrlen' : option Z) w1 (family : Z) wq :
  call_libcAccept4 sockfd None addrlen flags w
    = Some ((acceptedSocket, addr', addrlen'), w1) ->
  acceptedSocket <> -1 ->
  call_getsockopt acceptedSocket SOL_SOCKET SO_DOMAIN w1
    = Some ((-1, family), wq) ->
  INT_MIN <= errno (sys wq) <= INT_MAX ->
  exists (closed : Z) w3,
    netdClientAccept4 sockfd None addrlen flags w
      = Some ((-1, None, addrlen'), w3) /\
    errno (sys w3) = errno (sys wq) /\
    trace w3 = trace wq ++ [EvClose acceptedSocket closed].
Proof.
  intros Haccept Hfd Hquery Hrange. apply Z.eqb_neq in Hfd.
  destruct (call_libcAccept4_buffer _ _ _ _ _ _ _ _ _ Haccept) as [Hnull _].
  rewrite (proj1 Hnull eq_refl) in *.
  exists (fst (close acceptedSocket (sys wq))). eexists. split; [| split].
  - unfold netdClientAccept4, bind at 1. rewrite Haccept. cbv beta iota zeta.
    rewrite Hfd. unfold bind at 1. rewrite Hquery. cbv beta iota zeta.
    cbn [Z.eqb Pos.eqb]. unfold bind at 1, get_errno. unfold bind at 1.
    rewrite closeFdAndSetErrno_run. reflexivity.
  - cbn [sys with_sys errno with_errno]. now apply int_neg_involutive.
  - reflexivity.
Qed.

(** ** Pinning a network *)

Lemma probeSocket_total w :
  exists (socketFd : Z) w1,
    probeSocket w = Some (socketFd, w1) /\
    netIdForProcess w1 = netIdForProcess w /\
    netIdForResolv w1 = netIdForResolv w.
Proof.
  unfold probeSocket, bind, libcSocket_is_set, call_libcSocket, call_socket.
  destruct (libcSocket w) as [f |] eqn:Hf.
  - rewrite Hf.
    destruct (f AF_INET6 (Z.lor SOCK_DGRAM SOCK_CLOEXEC) 0 (sys w)) as [r s'].
    eexists. eexists. repeat split.
  - destruct (socket AF_INET6 (Z.lor SOCK_DGRAM SOCK_CLOEXEC) 0 (sys w))
      as [r s'].
    eexists. eexists. repeat split.
Qed.

Lemma probeSocket_slots w (socketFd : Z) w1 (target : Target) :
  probeSocket w = Some (socketFd, w1) -> slot target w1 = slot target w.
Proof.
  intros Hprobe. destruct (probeSocket_total w) as (fd & w1' & H & Hp & Hr).
  rewrite Hprobe in H. injection H as <- <-.
  destruct target; assumption.
Qed.

(** C3. [setNetworkForProcess] and [setNetworkForResolv] are
    [setNetworkForTarget] on their slot, and for either slot:
    - pinning the unset identifier returns 0 and leaves the slot unset,
      with no external call, whatever the world was;
    - pinning another identifier, with the probe socket created: the
      function returns the status of the probe's SELECT_NETWORK exchange;
      status 0 stores the identifier in the slot, any other status leaves
      the slot as it was; the probe is closed either way;
    - when the probe socket cannot be created, the slot is left as it was
      and the result is the negated [errno]. *)
Theorem setNetworkForTarget_pins (target : Target) w :
  (forall netId,
     setNetworkForProcess netId = setNetworkForTarget netId ForProcess /\
     setNetworkForResolv netId = setNetworkForTarget netId ForResolv) /\
  (exists w',
     setNetworkForTarget NETID_UNSET target w = Some (0, w') /\
     slot target w' = NETID_UNSET /\
     trace w' = trace w /\ sys w' = sys w) /\
  (forall (netId socketFd : Z) w1 (error : Z) w2,
     netId <> NETID_UNSET ->
     probeSocket w = Some (socketFd, w1) ->
     0 <= socketFd ->
     call_send (mk_FwmarkCommand SELECT_NETWORK netId 0) socketFd None w1
       = Some (error, w2) ->
     exists (closed : Z) w3,
       setNetworkForTarget netId target w = Some (error, w3) /\
       (error = 0 -> slot target w3 = netId) /\
       (error <> 0 -> slot target w3 = slot target w) /\
       trace w3 = trace w2 ++ [EvClose socketFd closed]) /\
  (forall (netId socketFd : Z) w1,
     netId <> NETID_UNSET ->
     probeSocket w = Some (socketFd, w1) ->
     socketFd < 0 ->
     setNetworkForTarget netId target w = Some (int_neg (errno (sys w1)), w1) /\
     slot target w1 = slot target w).
Proof.
  split; [| split; [| split]].
  - intros netId. split; reflexivity.
  - unfold setNetworkForTarget. cbn [Z.eqb NETID_UNSET]. unfold bind, store, ret.
    destruct target; eexists; repeat split.
  - intros netId socketFd w1 error w2 Hnet Hprobe Hfd Hsend.
    apply Z.eqb_neq in Hnet.
    pose proof (probeSocket_slots _ _ _ target Hprobe) as Hslot1.
    assert (Hslot2 : slot target w2 = slot target w1).
    { apply call_send_trace in Hsend. destruct Hsend as (_ & Hp & Hr & _).
      destruct target; assumption. }
    exists (fst (close socketFd (sys w2))).
    unfold setNetworkForTarget. rewrite Hnet. unfold bind at 1. rewrite Hprobe.
    rewrite (proj2 (Z.ltb_ge socketFd 0) Hfd).
    unfold bind at 1. rewrite setNetworkForSocket_run by assumption.
    rewrite Hsend. unfold bind at 1 2.
    destruct (error =? 0) eqn:Herror.
    + apply Z.eqb_eq in Herror. subst error.
      unfold bind, store, call_close, ret.
      destruct target; cbn [sys];
        destruct (close socketFd (sys w2)) as [r s']; cbn [fst];
        eexists; (split; [reflexivity |]);
        (split; [reflexivity |]); (split; [congruence | reflexivity]).
    + apply Z.eqb_neq in Herror.
      unfold bind, call_close, ret.
      destruct (close socketFd (sys w2)) as [r s']; cbn [fst].
      eexists. split; [reflexivity |].
      split; [congruence |]. split; [| reflexivity].
      intros _. rewrite <- Hslot1, <- Hslot2. destruct target; reflexivity.
  - intros netId socketFd w1 Hnet Hprobe Hfd.
    apply Z.eqb_neq in Hnet. apply Z.ltb_lt in Hfd.
    split; [| exact (probeSocket_slots _ _ _ target Hprobe)].
    unfold setNetworkForTarget. rewrite Hnet. unfold bind at 1. rewrite Hprobe, Hfd.
    reflexivity.
Qed.

(** ** What the functions leave alone *)

Lemma unchanged_refl w : unchanged w w.
Proof. repeat split. Qed.

Lemma unchanged_trans w1 w2 w3 :
  unchanged w1 w2 -> unchanged w2 w3 -> unchanged w1 w3.
Proof.
  unfold unchanged, same_slots, same_hooks.
  intros ((? & ?) & ? & ? & ? & ?) ((? & ?) & ? & ? & ? & ?).
  repeat split; congruence.
Qed.

Lemma same_hooks_trans w1 w2 w3 :
  same_hooks w1 w2 -> same_hooks w2 w3 -> same_hooks w1 w3.
Proof.
  unfold same_hooks. intros (? & ? & ? & ?) (? & ? & ? & ?).
  repeat split; congruence.
Qed.

Lemma kept_ret {A : Type} (a : A) : kept unchanged (@ret K A a).
Proof. intros w a' w' H. injection H as <- <-. apply unchanged_refl. Qed.

Lemma kept_bind {A B : Type} (m : M K A) (k : A -> M K B) :
  kept unchanged m -> (forall a, kept unchanged (k a)) ->
  kept unchanged (bind m k).
Proof.
  intros Hm Hk w b w'. unfold bind.
  destruct (m w) as [[a w1] |] eqn:E; [| discriminate].
  intros H. eapply unchanged_trans; [eapply Hm | eapply Hk]; eauto.
Qed.

Lemma kept_hooks_bind {A B : Type} (m : M K A) (k : A -> M K B) :
  kept same_hooks m -> (forall a, kept same_hooks (k a)) ->
  kept same_hooks (bind m k).
Proof.
  intros Hm Hk w b w'. unfold bind.
  destruct (m w) as [[a w1] |] eqn:E; [| discriminate].
  intros H. eapply same_hooks_trans; [eapply Hm | eapply Hk]; eauto.
Qed.

Lemma kept_hooks_of_unchanged {A : Type} (m : M K A) :
  kept unchanged m -> kept same_hooks m.
Proof. intros Hm w a w' H. exact (proj2 (Hm w a w' H)). Qed.

Lemma kept_undefined {A : Type} : kept unchanged (@undefined K A).
Proof. intros w a w' H. discriminate. Qed.

Lemma kept_get_errno : kept unchanged (@get_errno K).
Proof. intros w a w' H. injection H as <- <-. apply unchanged_refl. Qed.

Lemma kept_set_errno (e : Z) : kept unchanged (@set_errno K e).
Proof. intros w a w' H. injection H as <- <-. repeat split. Qed.

Lemma kept_load (target : Target) : kept unchanged (@load K target).
Proof.
  intros w a w' H. destruct target; injection H as <- <-; apply unchanged_refl.
Qed.

Lemma kept_hooks_store (target : Target) (netId : Z) :
  kept same_hooks (@store K target netId).
Proof.
  intros w a w' H. destruct target; injection H as <- <-; repeat split.
Qed.

Lemma kept_deref {A : Type} (p : option A) : kept unchanged (@deref K A p).
Proof.
  intros w a w' H. destruct p; [| discriminate].
  injection H as <- <-. apply unchanged_refl.
Qed.

Lemma kept_propConnect_is_set : kept unchanged (@propConnect_is_set K).
Proof.
  intros w a w'. unfold propConnect_is_set.
  destruct (propConnect (propClientDispatch w)); intros H;
    injection H as <- <-; apply unchanged_refl.
Qed.

Lemma kept_propSocket_is_set : kept unchanged (@propSocket_is_set K).
Proof.
  intros w a w'. unfold propSocket_is_set.
  destruct (propSocket (propClientDispatch w)); intros H;
    injection H as <- <-; apply unchanged_refl.
Qed.

Lemma kept_libcSocket_is_set : kept unchanged (@libcSocket_is_set K).
Proof.
  intros w a w'. unfold libcSocket_is_set.
  destruct (libcSocket w); intros H; injection H as <- <-; apply unchanged_refl.
Qed.

Lemma kept_Stopwatch_start : kept unchanged (@Stopwatch_start K).
Proof. intros w a w' H. injection H as <- <-. apply unchanged_refl. Qed.

Lemma kept_Stopwatch_read s : kept unchanged (Stopwatch_read s).
Proof. intros w a w' H. injection H as <- <-. apply unchanged_refl. Qed.

Lemma kept_call_close (fd : Z) : kept unchanged (call_close fd).
Proof.
  intros w a w'. unfold call_close. destruct (close fd (sys w)) as [r s'].
  intros H. injection H as <- <-. repeat split.
Qed.

Lemma kept_call_getsockopt (fd level optname : Z) :
  kept unchanged (call_getsockopt fd level optname).
Proof.
  intros w a w'. unfold call_getsockopt.
  destruct (getsockopt fd level optname (sys w)) as [[r v] s'].
  intros H. injection H as <- <-. repeat split.
Qed.

Lemma kept_call_send (command : FwmarkCommand) (fd : Z)
    (info : option FwmarkConnectInfo) :
  kept unchanged (call_send command fd info).
Proof.
  intros w a w'. rewrite call_send_run. intros H. injection H as <- <-.
  repeat split.
Qed.

Lemma kept_call_socket (domain type protocol : Z) :
  kept unchanged (call_socket domain type protocol).
Proof.
  intros w a w'. unfold call_socket.
  destruct (socket domain type protocol (sys w)) as [r s'].
  intros H. injection H as <- <-. repeat split.
Qed.

Lemma kept_call_libcSocket (domain type protocol : Z) :
  kept unchanged (@call_libcSocket K domain type protocol).
Proof.
  intros w a w'. unfold call_libcSocket.
  destruct (libcSocket w) as [f |]; [| discriminate].
  destruct (f domain type protocol (sys w)) as [r s'].
  intros H. injection H as <- <-. repeat split.
Qed.

Lemma kept_call_propSocket (domain type protocol : Z) :
  kept unchanged (@call_propSocket K domain type protocol).
Proof.
  intros w a w'. unfold call_propSocket.
  destruct (propSocket (propClientDispatch w)) as [f |]; [| discriminate].
  destruct (f domain type protocol (sys w)) as [r s'].
  intros H. injection H as <- <-. repeat split.
Qed.

Lemma kept_call_libcConnect (sockfd : Z) (addr : option sockaddr) (addrlen : Z) :
  kept unchanged (@call_libcConnect K sockfd addr addrlen).
Proof.
  intros w a w'. unfold call_libcConnect.
  destruct (libcConnect w) as [f |]; [| discriminate].
  destruct (f sockfd addr addrlen (sys w)) as [r s'].
  intros H. injection H as <- <-. repeat split.
Qed.

Lemma kept_call_propConnect (sockfd : Z) (addr : option sockaddr) (addrlen : Z) :
  kept unchanged (@call_propConnect K sockfd addr addrlen).
Proof.
  intros w a w'. unfold call_propConnect.
  destruct (propConnect (propClientDispatch w)) as [f |]; [| discriminate].
  destruct (f sockfd addr addrlen (sys w)) as [r s'].
  intros H. injection H as <- <-. repeat split.
Qed.

Lemma kept_call_libcAccept4 (sockfd : Z) (addr : option sockaddr)
    (addrlen : option Z) (flags : Z) :
  kept unchanged (@call_libcAccept4 K sockfd addr addrlen flags).
Proof.
  intros w a w'. unfold call_libcAccept4.
  destruct (libcAccept4 w) as [f |]; [| discriminate].
  destruct (f sockfd addr addrlen flags (sys w)) as [[[r b] l] s'].
  intros H. injection H as <- <-. repeat split.
Qed.

Create HintDb frame.

#[local] Hint Resolve kept_ret kept_undefined kept_get_errno kept_set_errno
  kept_load kept_deref kept_propConnect_is_set kept_propSocket_is_set
  kept_libcSocket_is_set kept_Stopwatch_start kept_Stopwatch_read
  kept_call_close kept_call_getsockopt kept_call_send kept_call_socket
  kept_call_libcSocket kept_call_propSocket kept_call_libcConnect
  kept_call_propConnect kept_call_libcAccept4 : frame.

(** Splits a goal [kept unchanged m] along the binds and the tests of [m]. *)
Ltac frame :=
  repeat first
    [ solve [auto with frame]
    | apply kept_bind; [| intros ?]
    | match goal with
      | |- kept unchanged (if ?b then _ else _) => destruct b
      | |- kept unchanged (match ?x with Some _ => _ | None => _ end) =>
          destruct x
      | |- kept unchanged (let '(_, _) := ?x in _) => destruct x
      end ].

Lemma kept_closeFdAndSetErrno (fd error : Z) :
  kept unchanged (closeFdAndSetErrno fd error).
Proof. unfold closeFdAndSetErrno. frame. Qed.

Lemma kept_setNetworkForSocket (netId socketFd : Z) :
  kept unchanged (setNetworkForSocket netId socketFd).
Proof. unfold setNetworkForSocket. frame. Qed.

Lemma kept_createSocket (domain type protocol : Z) :
  kept unchanged (createSocket domain type protocol).
Proof. unfold createSocket. frame. Qed.

Lemma kept_attemptConnect (sockfd : Z) (addr : option sockaddr) (addrlen : Z) :
  kept unchanged (attemptConnect sockfd addr addrlen).
Proof. unfold attemptConnect. frame. Qed.

Lemma kept_probeSocket : kept unchanged probeSocket.
Proof. unfold probeSocket. frame. Qed.

#[local] Hint Resolve kept_closeFdAndSetErrno kept_setNetworkForSocket
  kept_createSocket kept_attemptConnect kept_probeSocket : frame.

Lemma kept_netdClientSocket (domain type protocol : Z) :
  kept unchanged (netdClientSocket domain type protocol).
Proof. unfold netdClientSocket. frame. Qed.

Lemma kept_netdClientConnect (sockfd : Z) (addr : option sockaddr) (addrlen : Z) :
  kept unchanged (netdClientConnect sockfd addr addrlen).
Proof. unfold netdClientConnect. cbv zeta. frame. Qed.

Lemma kept_netdClientAccept4 (sockfd : Z) (addr : option sockaddr)
    (addrlen : option Z) (flags : Z) :
  kept unchanged (netdClientAccept4 sockfd addr addrlen flags).
Proof. unfold netdClientAccept4. cbv zeta. frame. Qed.

Lemma kept_getNetworkForSocket (netId : option Z) (socketFd : Z) :
  kept unchanged (getNetworkForSocket netId socketFd).
Proof. unfold getNetworkForSocket. frame. Qed.

Lemma kept_hooks_setNetworkForTarget (netId : Z) (target : Target) :
  kept same_hooks (setNetworkForTarget netId target).
Proof.
  unfold setNetworkForTarget.
  destruct (netId =? NETID_UNSET).
  - apply kept_hooks_bind; [apply kept_hooks_store |].
    intros _. apply kept_hooks_of_unchanged. frame.
  - apply kept_hooks_bind; [apply kept_hooks_of_unchanged; frame |].
    intros socketFd. destruct (socketFd <? 0).
    + apply kept_hooks_of_unchanged. frame.
    + apply kept_hooks_bind; [apply kept_hooks_of_unchanged; frame |].
      intros error. apply kept_hooks_bind.
      * destruct (error =? 0);
          [apply kept_hooks_store | apply kept_hooks_of_unchanged; frame].
      * intros _. apply kept_hooks_of_unchanged. frame.
Qed.

(** ** More on the wrapped [socket] *)

Lemma setNetworkForSocket_cases (netId socketFd : Z) w :
  exists (error : Z) w2,
    setNetworkForSocket netId socketFd w = Some (error, w2) /\
    ((socketFd < 0 /\ error = - EBADF /\ w2 = w) \/
     (0 <= socketFd /\
      gained w w2
        [EvSend (mk_FwmarkCommand SELECT_NETWORK netId 0) socketFd None error])).
Proof.
  unfold setNetworkForSocket. destruct (socketFd <? 0) eqn:E.
  - apply Z.ltb_lt in E. exists (- EBADF), w. split; [reflexivity |].
    left. auto.
  - apply Z.ltb_ge in E. rewrite call_send_run. eexists. eexists.
    split; [reflexivity |]. right. split; [exact E | reflexivity].
Qed.

Lemma netdClientSocket_cases (domain type protocol : Z) w (socketFd : Z) w1 :
  createSocket domain type protocol w = Some (socketFd, w1) ->
  netdClientSocket domain type protocol w =
    if socketFd =? -1 then Some (-1, w1)
    else if negb (netIdForProcess w1 =? NETID_UNSET) && shouldSetFwmark domain
    then
      match setNetworkForSocket (netIdForProcess w1) socketFd w1 with
      | Some (error, w2) =>
          if negb (error =? 0) then closeFdAndSetErrno socketFd error w2
          else Some (socketFd, w2)
      | None => None
      end
    else Some (socketFd, w1).
Proof.
  intros Hsock. unfold netdClientSocket, bind at 1. rewrite Hsock.
  destruct (socketFd =? -1); [reflexivity |].
  unfold bind at 1, load.
  destruct (negb (netIdForProcess w1 =? NETID_UNSET) && shouldSetFwmark domain);
    [| reflexivity].
  unfold bind.
  destruct (setNetworkForSocket (netIdForProcess w1) socketFd w1)
    as [[error w2] |]; [| reflexivity].
  destruct (negb (error =? 0)); reflexivity.
Qed.

(** X1. When the socket creation itself fails, the wrapper returns -1 in
    the world the creation left: [errno] is the creation's, and neither the
    daemon nor [close] is called. *)
Theorem netdClientSocket_creation_failure (domain type protocol : Z) w w1 :
  createSocket domain type protocol w = Some (-1, w1) ->
  netdClientSocket domain type protocol w = Some (-1, w1).
Proof.
  intros Hsock. now rewrite (netdClientSocket_cases _ _ _ _ _ _ Hsock).
Qed.

(** X2. In a pinned process, a socket of a qualifying domain whose
    SELECT_NETWORK exchange answers 0 is returned open: the wrapper's only
    call after the creation is that exchange, carrying the pinned network
    and the new descriptor, and [errno] is left as the exchange left it. *)
Theorem netdClientSocket_mark_granted (domain type protocol : Z) w
    (socketFd : Z) w1 w2 :
  createSocket domain type protocol w = Some (socketFd, w1) ->
  0 <= socketFd ->
  netIdForProcess w1 <> NETID_UNSET ->
  shouldSetFwmark domain = true ->
  call_send (mk_FwmarkCommand SELECT_NETWORK (netIdForProcess w1) 0)
    socketFd None w1 = Some (0, w2) ->
  netdClientSocket domain type protocol w = Some (socketFd, w2) /\
  gained w1 w2
    [EvSend (mk_FwmarkCommand SELECT_NETWORK (netIdForProcess w1) 0)
       socketFd None 0].
Proof.
  intros Hsock Hfd Hpinned Hdomain Hsend.
  rewrite (netdClientSocket_cases _ _ _ _ _ _ Hsock).
  replace (socketFd =? -1) with false by (symmetry; apply Z.eqb_neq; lia).
  apply Z.eqb_neq in Hpinned. rewrite Hpinned, Hdomain. cbn [negb andb].
  rewrite setNetworkForSocket_run by assumption. rewrite Hsend.
  split; [reflexivity |]. now apply call_send_trace in Hsend.
Qed.

(** X3. Whatever the daemon and the kernel answer, a wrapped [socket]
    whose creation has an outcome ends in one of two ways: it returns what
    the creation returned and has closed nothing, or it returns -1 and its
    last call was to close the descriptor it had created.  No created
    descriptor is both withheld from the caller and left open. *)
Theorem netdClientSocket_never_leaks (domain type protocol : Z) w
    (socketFd : Z) w1 :
  createSocket domain type protocol w = Some (socketFd, w1) ->
  exists (result : Z) w' (calls : list Event),
    netdClientSocket domain type protocol w = Some (result, w') /\
    gained w1 w' calls /\
    ((result = socketFd /\ existsb is_close calls = false) \/
     (result = -1 /\ socketFd <> -1 /\
      exists (before : list Event) (closed : Z),
        calls = before ++ [EvClose socketFd closed] /\
        existsb is_close before = false)).
Proof.
  intros Hsock. rewrite (netdClientSocket_cases _ _ _ _ _ _ Hsock).
  unfold gained.
  destruct (socketFd =? -1) eqn:Hfd.
  { apply Z.eqb_eq in Hfd. subst socketFd. exists (-1), w1, [].
    rewrite app_nil_r. repeat split. now left. }
  apply Z.eqb_neq in Hfd.
  destruct (negb (netIdForProcess w1 =? NETID_UNSET) && shouldSetFwmark domain).
  2:{ exists socketFd, w1, []. rewrite app_nil_r. repeat split. now left. }
  destruct (setNetworkForSocket_cases (netIdForProcess w1) socketFd w1)
    as (error & w2 & Hmark & Hcases).
  rewrite Hmark.
  assert (Hsent : exists sent, trace w2 = trace w1 ++ sent /\
                               existsb is_close sent = false).
  { destruct Hcases as [(_ & _ & ->) | (_ & Hgain)].
    - exists []. now rewrite app_nil_r.
    - eexists. split; [exact Hgain | reflexivity]. }
  destruct Hsent as (sent & Hsent & Hnoclose).
  destruct (error =? 0).
  - exists socketFd, w2, sent. cbn [negb]. repeat split; auto.
  - cbn [negb]. rewrite closeFdAndSetErrno_run.
    eexists. eexists. exists (sent ++ [EvClose socketFd (fst (close socketFd (sys w2)))]).
    split; [reflexivity |]. split.
    + cbn [trace with_sys log]. now rewrite Hsent, app_assoc.
    + right. split; [reflexivity |]. split; [exact Hfd |].
      exists sent. eexists. split; [reflexivity | exact Hnoclose].
Qed.

(** ** More on the wrapped [accept4] *)

Lemma netdClientAccept4_cases (sockfd : Z) (addr : option sockaddr)
    (addrlen : option Z) (flags : Z) w (acceptedSocket : Z)
    (addr' : option sockaddr) (addrlen' : option Z) w1 :
  call_libcAccept4 sockfd addr addrlen flags w
    = Some ((acceptedSocket, addr', addrlen'), w1) ->
  netdClientAccept4 sockfd addr addrlen flags w =
    if acceptedSocket =? -1 then Some ((-1, addr', addrlen'), w1)
    else
      match addr' with
      | Some a => markAccepted acceptedSocket addr' addrlen' (sa_family a) w1
      | None =>
          match call_getsockopt acceptedSocket SOL_SOCKET SO_DOMAIN w1 with
          | Some ((queried, family), wq) =>
              if queried =? -1 then
                match closeFdAndSetErrno acceptedSocket
                        (int_neg (errno (sys wq))) wq with
                | Some (r, w3) => Some ((r, None, addrlen'), w3)
                | None => None
                end
              else markAccepted acceptedSocket None addrlen' family wq
          | None => None
          end
      end.
Proof.
  intros Haccept. unfold netdClientAccept4, bind at 1. rewrite Haccept.
  cbv beta iota zeta. destruct (acceptedSocket =? -1); [reflexivity |].
  destruct addr' as [a |]; [reflexivity |].
  unfold bind at 1.
  destruct (call_getsockopt acceptedSocket SOL_SOCKET SO_DOMAIN w1)
    as [[[queried family] wq] |]; [| reflexivity].
  cbv beta iota zeta. destruct (queried =? -1); [| reflexivity].
  unfold bind at 1, get_errno. unfold bind at 1.
  rewrite closeFdAndSetErrno_run. reflexivity.
Qed.

Lemma markAccepted_cases (acceptedSocket : Z) (addr' : option sockaddr)
    (addrlen' : option Z) (family : Z) w :
  (shouldSetFwmark family = false /\
   markAccepted acceptedSocket addr' addrlen' family w
     = Some ((acceptedSocket, addr', addrlen'), w)) \/
  (shouldSetFwmark family = true /\
   exists (error : Z) w2,
     call_send (mk_FwmarkCommand ON_ACCEPT 0 0) acceptedSocket None w
       = Some (error, w2) /\
     gained w w2
       [EvSend (mk_FwmarkCommand ON_ACCEPT 0 0) acceptedSocket None error] /\
     ((error = 0 /\
       markAccepted acceptedSocket addr' addrlen' family w
         = Some ((acceptedSocket, addr', addrlen'), w2)) \/
      (error <> 0 /\
       exists (closed : Z) w3,
         markAccepted acceptedSocket addr' addrlen' family w
           = Some ((-1, addr', addrlen'), w3) /\
         errno (sys w3) = int_neg error /\
         gained w2 w3 [EvClose acceptedSocket closed]))).
Proof.
  unfold markAccepted. destruct (shouldSetFwmark family); [right | left; auto].
  split; [reflexivity |].
  destruct (call_send (mk_FwmarkCommand ON_ACCEPT 0 0) acceptedSocket None w)
    as [[error w2] |] eqn:Hsend;
    [| rewrite call_send_run in Hsend; discriminate].
  exists error, w2. split; [reflexivity |].
  split; [now apply call_send_trace in Hsend |].
  unfold bind at 1. unfold bind at 2. rewrite Hsend.
  destruct (error =? 0) eqn:Herror; cbn [negb].
  - apply Z.eqb_eq in Herror. left. auto.
  - apply Z.eqb_neq in Herror. right. split; [exact Herror |].
    unfold bind. rewrite closeFdAndSetErrno_run.
    eexists. eexists. split; [reflexivity |]. split; reflexivity.
Qed.

(** X4. When [accept4] itself fails, the wrapper returns -1 in the world
    [accept4] left, with the caller's buffers as [accept4] left them: no
    socket option is read, nothing is sent and nothing is closed. *)
Theorem netdClientAccept4_failure (sockfd : Z) (addr : option sockaddr)
    (addrlen : option Z) (flags : Z) w (addr' : option sockaddr)
    (addrlen' : option Z) w1 :
  call_libcAccept4 sockfd addr addrlen flags w = Some ((-1, addr', addrlen'), w1) ->
  netdClientAccept4 sockfd addr addrlen flags w = Some ((-1, addr', addrlen'), w1).
Proof.
  intros Haccept. now rewrite (netdClientAccept4_cases _ _ _ _ _ _ _ _ _ Haccept).
Qed.

(** X5. An accepted socket whose family does not qualify for marking is
    returned without any daemon exchange: with a buffer the wrapper adds
    nothing to what [accept4] did, without one it adds the one
    [getsockopt]. *)
Theorem netdClientAccept4_unmarked (sockfd : Z) (addr : option sockaddr)
    (addrlen : option Z) (flags : Z) w (acceptedSocket : Z)
    (addr' : option sockaddr) (addrlen' : option Z) w1 :
  call_libcAccept4 sockfd addr addrlen flags w
    = Some ((acceptedSocket, addr', addrlen'), w1) ->
  acceptedSocket <> -1 ->
  (forall a : sockaddr,
     addr' = Some a ->
     shouldSetFwmark (sa_family a) = false ->
     netdClientAccept4 sockfd addr addrlen flags w
       = Some ((acceptedSocket, addr', addrlen'), w1)) /\
  (forall (queried family : Z) wq,
     addr = None ->
     call_getsockopt acceptedSocket SOL_SOCKET SO_DOMAIN w1
       = Some ((queried, family), wq) ->
     queried <> -1 ->
     shouldSetFwmark family = false ->
     netdClientAccept4 sockfd addr addrlen flags w
       = Some ((acceptedSocket, addr', addrlen'), wq) /\
     gained w1 wq
       [EvGetsockopt acceptedSocket SOL_SOCKET SO_DOMAIN queried family]).
Proof.
  intros Haccept Hfd. apply Z.eqb_neq in Hfd.
  destruct (call_libcAccept4_buffer _ _ _ _ _ _ _ _ _ Haccept) as [Hnull _].
  rewrite (netdClientAccept4_cases _ _ _ _ _ _ _ _ _ Haccept), Hfd.
  split.
  - intros a -> Hfamily.
    destruct (markAccepted_cases acceptedSocket (Some a) addrlen' (sa_family a) w1)
      as [[_ Hrun] | [Hyes _]]; [exact Hrun | congruence].
  - intros queried family wq Hnone Hquery Hqueried Hfamily.
    apply Hnull in Hnone. subst addr'. rewrite Hquery.
    apply Z.eqb_neq in Hqueried. rewrite Hqueried. split.
    + destruct (markAccepted_cases acceptedSocket None addrlen' family wq)
        as [[_ Hrun] | [Hyes _]]; [exact Hrun | congruence].
    + unfold call_getsockopt in Hquery.
      destruct (getsockopt acceptedSocket SOL_SOCKET SO_DOMAIN (sys w1))
        as [[r v] s'].
      injection Hquery as <- <- <-. reflexivity.
Qed.

(** X6. An accepted socket of a qualifying family whose ON_ACCEPT exchange
    answers 0 is returned open, in the world that exchange left: the
    exchange carried the accepted descriptor and was the wrapper's last
    call. *)
Theorem netdClientAccept4_granted (sockfd : Z) (addr : option sockaddr)
    (addrlen : option Z) (flags : Z) w (acceptedSocket : Z)
    (addr' : option sockaddr) (addrlen' : option Z) w1 :
  call_libcAccept4 sockfd addr addrlen flags w
    = Some ((acceptedSocket, addr', addrlen'), w1) ->
  acceptedSocket <> -1 ->
  (forall (a : sockaddr) w2,
     addr' = Some a ->
     shouldSetFwmark (sa_family a) = true ->
     call_send (mk_FwmarkCommand ON_ACCEPT 0 0) acceptedSocket None w1
       = Some (0, w2) ->
     netdClientAccept4 sockfd addr addrlen flags w
       = Some ((acceptedSocket, addr', addrlen'), w2) /\
     gained w1 w2
       [EvSend (mk_FwmarkCommand ON_ACCEPT 0 0) acceptedSocket None 0]) /\
  (forall (queried family : Z) wq w2,
     addr = None ->
     call_getsockopt acceptedSocket SOL_SOCKET SO_DOMAIN w1
       = Some ((queried, family), wq) ->
     queried <> -1 ->
     shouldSetFwmark family = true ->
     call_send (mk_FwmarkCommand ON_ACCEPT 0 0) acceptedSocket None wq
       = Some (0, w2) ->
     netdClientAccept4 sockfd addr addrlen flags w
       = Some ((acceptedSocket, addr', addrlen'), w2) /\
     gained wq w2
       [EvSend (mk_FwmarkCommand ON_ACCEPT 0 0) acceptedSocket None 0]).
Proof.
  intros Haccept Hfd. apply Z.eqb_neq in Hfd.
  destruct (call_libcAccept4_buffer _ _ _ _ _ _ _ _ _ Haccept) as [Hnull _].
  rewrite (netdClientAccept4_cases _ _ _ _ _ _ _ _ _ Haccept), Hfd.
  split.
  - intros a w2 -> Hfamily Hsend.
    destruct (markAccepted_cases acceptedSocket (Some a) addrlen' (sa_family a) w1)
      as [[Hno _] | (_ & error & w2' & Hsend' & Hgain & Hcases)]; [congruence |].
    rewrite Hsend in Hsend'. injection Hsend' as <- <-.
    destruct Hcases as [[_ Hrun] | [Hne _]]; [auto | congruence].
  - intros queried family wq w2 Hnone Hquery Hqueried Hfamily Hsend.
    apply Hnull in Hnone. subst addr'. rewrite Hquery.
    apply Z.eqb_neq in Hqueried. rewrite Hqueried.
    destruct (markAccepted_cases acceptedSocket None addrlen' family wq)
      as [[Hno _] | (_ & error & w2' & Hsend' & Hgain & Hcases)]; [congruence |].
    rewrite Hsend in Hsend'. injection Hsend' as <- <-.
    destruct Hcases as [[_ Hrun] | [Hne _]]; [auto | congruence].
Qed.

(** X8. Whatever the daemon and the kernel answer, a wrapped [accept4]
    whose original has an outcome ends in one of two ways: it returns what
    [accept4] returned and has closed nothing, or it returns -1 and its
    last call was to close the descriptor [accept4] had produced.  Either
    way the caller's buffers are as [accept4] left them. *)
Theorem netdClientAccept4_never_leaks (sockfd : Z) (addr : option sockaddr)
    (addrlen : option Z) (flags : Z) w (acceptedSocket : Z)
    (addr' : option sockaddr) (addrlen' : option Z) w1 :
  call_libcAccept4 sockfd addr addrlen flags w
    = Some ((acceptedSocket, addr', addrlen'), w1) ->
  exists (result : Z) w' (calls : list Event),
    netdClientAccept4 sockfd addr addrlen flags w
      = Some ((result, addr', addrlen'), w') /\
    gained w1 w' calls /\
    ((result = acceptedSocket /\ existsb is_close calls = false) \/
     (result = -1 /\ acceptedSocket <> -1 /\
      exists (before : list Event) (closed : Z),
        calls = before ++ [EvClose acceptedSocket closed] /\
        existsb is_close before = false)).
Proof.
  intros Haccept.
  rewrite (netdClientAccept4_cases _ _ _ _ _ _ _ _ _ Haccept).
  destruct (acceptedSocket =? -1) eqn:Hfd.
  { apply Z.eqb_eq in Hfd. subst acceptedSocket. exists (-1), w1, [].
    unfold gained. rewrite app_nil_r. repeat split. now left. }
  apply Z.eqb_neq in Hfd.
  assert (Hmark : forall family wm (seen : list Event),
            gained w1 wm seen -> existsb is_close seen = false ->
            exists (result : Z) w' (calls : list Event),
              markAccepted acceptedSocket addr' addrlen' family wm
                = Some ((result, addr', addrlen'), w') /\
              gained w1 w' calls /\
              ((result = acceptedSocket /\ existsb is_close calls = false) \/
               (result = -1 /\ acceptedSocket <> -1 /\
                exists (before : list Event) (closed : Z),
                  calls = before ++ [EvClose acceptedSocket closed] /\
                  existsb is_close before = false))).
  { intros family wm seen Hseen Hnoclose. unfold gained in *.
    destruct (markAccepted_cases acceptedSocket addr' addrlen' family wm)
      as [[_ Hrun] | (_ & error & w2 & _ & Hgain & Hcases)].
    - exists acceptedSocket, wm, seen. auto.
    - unfold gained in Hgain.
      destruct Hcases as [[_ Hrun] | (_ & closed & w3 & Hrun & _ & Hclose)].
      + eexists. eexists. eexists. split; [exact Hrun |].
        split; [rewrite Hgain, Hseen, <- app_assoc; reflexivity |].
        left. split; [reflexivity |].
        rewrite existsb_app, Hnoclose. reflexivity.
      + unfold gained in Hclose.
        eexists. eexists. eexists. split; [exact Hrun |].
        split; [rewrite Hclose, Hgain, Hseen, <- !app_assoc; reflexivity |].
        right. split; [reflexivity |]. split; [exact Hfd |].
        eexists. exists closed. rewrite app_assoc. split; [reflexivity |].
        rewrite existsb_app, Hnoclose. reflexivity. }
  destruct addr' as [a |].
  - apply (Hmark (sa_family a) w1 []); [unfold gained; now rewrite app_nil_r | reflexivity].
  - destruct (call_getsockopt acceptedSocket SOL_SOCKET SO_DOMAIN w1)
      as [[[queried family] wq] |] eqn:Hquery.
    2:{ unfold call_getsockopt in Hquery.
        destruct (getsockopt acceptedSocket SOL_SOCKET SO_DOMAIN (sys w1))
          as [[r v] s']. discriminate. }
    assert (Hq : gained w1 wq
              [EvGetsockopt acceptedSocket SOL_SOCKET SO_DOMAIN queried family]).
    { unfold call_getsockopt in Hquery.
      destruct (getsockopt acceptedSocket SOL_SOCKET SO_DOMAIN (sys w1))
        as [[r v] s'].
      injection Hquery as <- <- <-. reflexivity. }
    destruct (queried =? -1).
    + rewrite closeFdAndSetErrno_run. unfold gained in *.
      eexists. eexists. eexists. split; [reflexivity |].
      split; [cbn [trace with_sys log]; rewrite Hq, <- app_assoc; reflexivity |].
      right. split; [reflexivity |]. split; [exact Hfd |].
      eexists. eexists. split; reflexivity.
    + apply (Hmark family wq _ Hq). reflexivity.
Qed.

(** ** More on the wrapped [connect] *)

(** X9. A connect to a destination that is marked and reported, with
    ON_CONNECT granted: the wrapper makes three calls in this order, the
    ON_CONNECT exchange, one connection attempt, the ON_CONNECT_COMPLETE
    exchange.  The report goes out whether the attempt succeeded or not; it
    carries 0 for an attempt that returned 0 and otherwise the [errno] the
    attempt left, the time from after the ON_CONNECT exchange to the end of
    the attempt, and the caller's address; the caller gets the attempt's
    result and [errno]. *)
Theorem netdClientConnect_completion_report (sockfd : Z) (a : sockaddr)
    (addrlen : Z) w w0 (result : Z) w1 :
  0 <= sockfd ->
  shouldSetFwmark (sa_family a) = true ->
  shouldReportConnectComplete (sa_family a) = true ->
  call_send (mk_FwmarkCommand ON_CONNECT 0 0) sockfd None w = Some (0, w0) ->
  attemptConnect sockfd (Some a) addrlen w0 = Some (result, w1) ->
  exists w2 (attempt : Event) (status : Z),
    netdClientConnect sockfd (Some a) addrlen w = Some (result, w2) /\
    errno (sys w2) = errno (sys w1) /\
    is_connect attempt = true /\
    gained w w2
      [EvSend (mk_FwmarkCommand ON_CONNECT 0 0) sockfd None 0;
       attempt;
       EvSend (mk_FwmarkCommand ON_CONNECT_COMPLETE 0 0) sockfd
         (Some (mk_FwmarkConnectInfo
                  (if result =? 0 then 0 else errno (sys w1))
                  (to_unsigned (Stopwatch_timeTaken (sys w0) (sys w1)))
                  a))
         status].
Proof.
  intros Hfd Hmarked Hreported Hsend Hattempt.
  assert (Hmark : connectShouldSetFwmark sockfd (Some a) = true).
  { unfold connectShouldSetFwmark. rewrite Hmarked, andb_true_r.
    rewrite Z.geb_leb. now apply Z.leb_le. }
  assert (Hreach : reaches_connect sockfd (Some a) w w0) by (right; auto).
  assert (Hreports : reportsConnectComplete sockfd (Some a) = true).
  { unfold reportsConnectComplete. now rewrite Hmark, Hreported. }
  destruct (netdClientConnect_from_connect _ _ _ _ _ _ _ Hreach Hattempt)
    as (w2 & Hrun & Herrno & [[Hno _] | (_ & a' & status & Ha & Htrace)]);
    [congruence |].
  injection Ha as <-.
  apply call_send_trace in Hsend. destruct Hsend as (Hsent & _).
  unfold gained. exists w2.
  destruct (attemptConnect_trace _ _ _ _ _ _ Hattempt) as [Ht | [_ Ht]];
    [exists (EvLibcConnect sockfd (Some a) addrlen result)
    | exists (EvPropConnect sockfd (Some a) addrlen result)];
    exists status;
    (split; [exact Hrun |]); (split; [exact Herrno |]);
    (split; [reflexivity |]);
    rewrite Htrace, Ht, Hsent, <- !app_assoc; reflexivity.
Qed.

(** ** More on pinning *)

Lemma probeSocket_trace w (socketFd : Z) w1 :
  probeSocket w = Some (socketFd, w1) ->
  gained w w1
    [match libcSocket w with
     | Some _ => EvLibcSocket AF_INET6 (Z.lor SOCK_DGRAM SOCK_CLOEXEC) 0 socketFd
     | None => EvSocket AF_INET6 (Z.lor SOCK_DGRAM SOCK_CLOEXEC) 0 socketFd
     end].
Proof.
  unfold probeSocket, bind, libcSocket_is_set, call_libcSocket, call_socket, gained.
  destruct (libcSocket w) as [f |] eqn:Hf.
  - rewrite Hf.
    destruct (f AF_INET6 (Z.lor SOCK_DGRAM SOCK_CLOEXEC) 0 (sys w)) as [r s'].
    intros H. now injection H as <- <-.
  - destruct (socket AF_INET6 (Z.lor SOCK_DGRAM SOCK_CLOEXEC) 0 (sys w))
      as [r s'].
    intros H. now injection H as <- <-.
Qed.

Lemma setNetworkForTarget_unset (target : Target) w :
  exists w',
    setNetworkForTarget NETID_UNSET target w = Some (0, w') /\
    slot target w' = NETID_UNSET /\
    (forall other, other <> target -> slot other w' = slot other w) /\
    gained w w' [] /\ sys w' = sys w /\ same_hooks w w'.
Proof.
  unfold setNetworkForTarget, gained. cbn [Z.eqb NETID_UNSET].
  unfold bind, store, ret.
  destruct target; eexists; (split; [reflexivity |]);
    (split; [reflexivity |]);
    (split; [intros [] Hne; [reflexivity || congruence | reflexivity || congruence] |]);
    cbn [trace sys]; rewrite app_nil_r; repeat split.
Qed.

Lemma setNetworkForTarget_probed (netId : Z) (target : Target) w
    (socketFd : Z) w1 (error : Z) w2 :
  netId <> NETID_UNSET ->
  probeSocket w = Some (socketFd, w1) ->
  0 <= socketFd ->
  call_send (mk_FwmarkCommand SELECT_NETWORK netId 0) socketFd None w1
    = Some (error, w2) ->
  exists (closed : Z) w3,
    setNetworkForTarget netId target w = Some (error, w3) /\
    slot target w3 = (if error =? 0 then netId else slot target w) /\
    (forall other, other <> target -> slot other w3 = slot other w) /\
    gained w2 w3 [EvClose socketFd closed].
Proof.
  intros Hnet Hprobe Hfd Hsend. apply Z.eqb_neq in Hnet.
  assert (Hslots : forall t, slot t w2 = slot t w).
  { intros t. apply kept_probeSocket in Hprobe. apply kept_call_send in Hsend.
    destruct Hprobe as [[Hp1 Hr1] _]. destruct Hsend as [[Hp2 Hr2] _].
    destruct t; cbn [slot]; congruence. }
  exists (fst (close socketFd (sys w2))).
  unfold setNetworkForTarget, gained. rewrite Hnet. unfold bind at 1.
  rewrite Hprobe. rewrite (proj2 (Z.ltb_ge socketFd 0) Hfd).
  unfold bind at 1. rewrite setNetworkForSocket_run by assumption.
  rewrite Hsend. unfold bind at 1 2.
  destruct (error =? 0).
  - unfold bind, store, call_close, ret.
    destruct target; cbn [sys];
      destruct (close socketFd (sys w2)) as [r s']; cbn [fst];
      eexists; (split; [reflexivity |]); (split; [reflexivity |]);
      (split; [| reflexivity]);
      intros [] Hne; try congruence; cbn [slot netIdForProcess netIdForResolv with_sys log];
      [exact (Hslots ForResolv) | exact (Hslots ForProcess)].
  - unfold bind, call_close, ret.
    destruct (close socketFd (sys w2)) as [r s']; cbn [fst].
    eexists. split; [reflexivity |].
    split; [destruct target; cbn [slot netIdForProcess netIdForResolv with_sys log];
            [exact (Hslots ForProcess) | exact (Hslots ForResolv)] |].
    split; [| reflexivity].
    intros t _. destruct t; cbn [slot netIdForProcess netIdForResolv with_sys log];
      [exact (Hslots ForProcess) | exact (Hslots ForResolv)].
Qed.

Lemma setNetworkForTarget_unprobed (netId : Z) (target : Target) w
    (socketFd : Z) w1 :
  netId <> NETID_UNSET ->
  probeSocket w = Some (socketFd, w1) ->
  socketFd < 0 ->
  setNetworkForTarget netId target w = Some (int_neg (errno (sys w1)), w1).
Proof.
  intros Hnet Hprobe Hfd. apply Z.eqb_neq in Hnet. apply Z.ltb_lt in Hfd.
  unfold setNetworkForTarget. rewrite Hnet. unfold bind at 1.
  rewrite Hprobe, Hfd. reflexivity.
Qed.

Lemma call_send_total (command : FwmarkCommand) (fd : Z)
    (info : option FwmarkConnectInfo) w :
  exists (status : Z) w', call_send command fd info w = Some (status, w').
Proof. rewrite call_send_run. eauto. Qed.

(** X10. Pinning a network other than unset, with the probe socket
    created: the function makes exactly three calls.  It creates an IPv6
    datagram socket with close-on-exec through the captured libc [socket]
    (through plain [socket] when none is captured), so never through the
    wrapper; it sends one SELECT_NETWORK with the network and the probe;
    and it closes the probe, whatever the daemon answered.  The answer is
    the result. *)
Theorem setNetworkForTarget_probe_log (netId : Z) (target : Target) w
    (socketFd : Z) w1 :
  netId <> NETID_UNSET ->
  probeSocket w = Some (socketFd, w1) ->
  0 <= socketFd ->
  exists (error closed : Z) w3,
    setNetworkForTarget netId target w = Some (error, w3) /\
    gained w w3
      [match libcSocket w with
       | Some _ => EvLibcSocket 10 524290 0 socketFd
       | None => EvSocket 10 524290 0 socketFd
       end;
       EvSend (mk_FwmarkCommand SELECT_NETWORK netId 0) socketFd None error;
       EvClose socketFd closed].
Proof.
  intros Hnet Hprobe Hfd.
  destruct (call_send_total (mk_FwmarkCommand SELECT_NETWORK netId 0)
              socketFd None w1) as (error & w2 & Hsend).
  destruct (setNetworkForTarget_probed _ target _ _ _ _ _ Hnet Hprobe Hfd Hsend)
    as (closed & w3 & Hrun & _ & _ & Hclose).
  exists error, closed, w3. split; [exact Hrun |].
  apply probeSocket_trace in Hprobe. apply call_send_trace in Hsend.
  destruct Hsend as (Hsent & _). unfold gained in *.
  rewrite Hclose, Hsent, Hprobe, <- !app_assoc.
  destruct (libcSocket w); reflexivity.
Qed.

(** X11. A pin operation always has an outcome, and it never touches the
    slot it was not asked to pin: pinning the process network leaves the
    resolver's, and the other way round, on every path. *)
Theorem setNetworkForTarget_other_slot (netId : Z) (target : Target) w :
  exists (result : Z) w',
    setNetworkForTarget netId target w = Some (result, w') /\
    forall other : Target, other <> target -> slot other w' = slot other w.
Proof.
  destruct (Z.eq_dec netId NETID_UNSET) as [-> | Hnet].
  - destruct (setNetworkForTarget_unset target w) as (w' & Hrun & _ & Hother & _).
    eauto.
  - destruct (probeSocket_total w) as (socketFd & w1 & Hprobe & Hp & Hr).
    destruct (Z_lt_le_dec socketFd 0) as [Hneg | Hfd].
    + rewrite (setNetworkForTarget_unprobed _ target _ _ _ Hnet Hprobe Hneg).
      eexists. eexists. split; [reflexivity |].
      intros [] _; cbn [slot]; assumption.
    + destruct (call_send_total (mk_FwmarkCommand SELECT_NETWORK netId 0)
                  socketFd None w1) as (error & w2 & Hsend).
      destruct (setNetworkForTarget_probed _ target _ _ _ _ _ Hnet Hprobe Hfd Hsend)
        as (closed & w3 & Hrun & _ & Hother & _).
      eauto.
Qed.

(** ** Pinning, then reading and creating *)

Lemma getNetworkForResolv_run (netId : Z) w :
  getNetworkForResolv netId w =
    Some (resolveNetworkForLookup_spec netId (netIdForProcess w)
            (netIdForResolv w), w).
Proof.
  unfold getNetworkForResolv, resolveNetworkForLookup_spec, bind, load, ret.
  destruct (netId =? NETID_UNSET); cbn [negb]; [| reflexivity].
  destruct (netIdForProcess w =? NETID_UNSET); cbn [negb]; [| reflexivity].
  destruct (netIdForResolv w =? NETID_UNSET) eqn:E; cbn [negb]; [| reflexivity].
  apply Z.eqb_eq in E. now rewrite E.
Qed.

(** X12. Pinning the process network and reading it back.  With the probe
    created: when the daemon answers 0, [getNetworkForProcess] returns the
    pinned network from then on and so does a resolver lookup without an
    explicit network; when it answers anything else, both return what they
    returned before the attempt. *)
Theorem pin_process_then_read (netId : Z) w (socketFd : Z) w1 (error : Z) w2 :
  netId <> NETID_UNSET ->
  probeSocket w = Some (socketFd, w1) ->
  0 <= socketFd ->
  call_send (mk_FwmarkCommand SELECT_NETWORK netId 0) socketFd None w1
    = Some (error, w2) ->
  exists w3,
    setNetworkForProcess netId w = Some (error, w3) /\
    (error = 0 ->
     getNetworkForProcess w3 = Some (netId, w3) /\
     getNetworkForResolv NETID_UNSET w3 = Some (netId, w3)) /\
    (error <> 0 ->
     getNetworkForProcess w3 = Some (netIdForProcess w, w3) /\
     forall found : Z,
       getNetworkForResolv NETID_UNSET w = Some (found, w) ->
       getNetworkForResolv NETID_UNSET w3 = Some (found, w3)).
Proof.
  intros Hnet Hprobe Hfd Hsend.
  destruct (setNetworkForTarget_probed _ ForProcess _ _ _ _ _ Hnet Hprobe Hfd Hsend)
    as (closed & w3 & Hrun & Hslot & Hother & _).
  specialize (Hother ForResolv ltac:(discriminate)). cbn [slot] in *.
  exists w3. split; [exact Hrun |].
  unfold getNetworkForProcess, load.
  rewrite !getNetworkForResolv_run. unfold resolveNetworkForLookup_spec.
  cbn [Z.eqb NETID_UNSET negb]. split.
  - intros ->. cbn [Z.eqb] in Hslot. rewrite Hslot.
    apply Z.eqb_neq in Hnet. rewrite Hnet.
    split; reflexivity.
  - intros Herror. apply Z.eqb_neq in Herror. rewrite Herror in Hslot.
    rewrite Hslot, Hother. split; [reflexivity |].
    intros found Hfound. injection Hfound as <-. reflexivity.
Qed.

(** X13. Pinning the resolver network, with the probe created and the
    daemon answering 0: [getNetworkForProcess] still returns what it
    returned before; a lookup with an explicit network returns that
    network; a lookup without one returns the process network while one is
    pinned, and the newly pinned resolver network otherwise. *)
Theorem pin_resolver_then_lookup (netId : Z) w (socketFd : Z) w1 w2 :
  netId <> NETID_UNSET ->
  probeSocket w = Some (socketFd, w1) ->
  0 <= socketFd ->
  call_send (mk_FwmarkCommand SELECT_NETWORK netId 0) socketFd None w1
    = Some (0, w2) ->
  exists w3,
    setNetworkForResolv netId w = Some (0, w3) /\
    getNetworkForProcess w3 = Some (netIdForProcess w, w3) /\
    (forall explicitId, explicitId <> NETID_UNSET ->
       getNetworkForResolv explicitId w3 = Some (explicitId, w3)) /\
    (netIdForProcess w <> NETID_UNSET ->
       getNetworkForResolv NETID_UNSET w3 = Some (netIdForProcess w, w3)) /\
    (netIdForProcess w = NETID_UNSET ->
       getNetworkForResolv NETID_UNSET w3 = Some (netId, w3)).
Proof.
  intros Hnet Hprobe Hfd Hsend.
  destruct (setNetworkForTarget_probed _ ForResolv _ _ _ _ _ Hnet Hprobe Hfd Hsend)
    as (closed & w3 & Hrun & Hslot & Hother & _).
  specialize (Hother ForProcess ltac:(discriminate)). cbn [slot Z.eqb] in *.
  exists w3. split; [exact Hrun |].
  unfold getNetworkForProcess, load. rewrite Hother.
  split; [reflexivity |].
  split; [| split].
  - intros explicitId He. rewrite getNetworkForResolv_run.
    unfold resolveNetworkForLookup_spec. apply Z.eqb_neq in He.
    now rewrite He.
  - intros Hp. rewrite getNetworkForResolv_run.
    unfold resolveNetworkForLookup_spec. cbn [Z.eqb NETID_UNSET negb].
    rewrite Hother. apply Z.eqb_neq in Hp. now rewrite Hp.
  - intros Hp. rewrite getNetworkForResolv_run.
    unfold resolveNetworkForLookup_spec. cbn [Z.eqb NETID_UNSET negb].
    rewrite Hother, Hp, Hslot. cbn [Z.eqb NETID_UNSET negb].
    apply Z.eqb_neq in Hnet. now rewrite Hnet.
Qed.

(** X14. Pinning, then creating sockets.  After a pin of the process
    network that the daemon granted, the wrapped [socket] asks the daemon
    to mark every socket of a qualifying domain with that network, as its
    first call after the creation.  After the process network is cleared,
    the wrapped [socket] returns what the creation returned and asks
    nothing. *)
Theorem pin_then_socket (w : World K) (domain type protocol : Z) :
  (forall (netId socketFd : Z) w1 w2 w3 (created : Z) w4,
     netId <> NETID_UNSET ->
     probeSocket w = Some (socketFd, w1) ->
     0 <= socketFd ->
     call_send (mk_FwmarkCommand SELECT_NETWORK netId 0) socketFd None w1
       = Some (0, w2) ->
     setNetworkForProcess netId w = Some (0, w3) ->
     shouldSetFwmark domain = true ->
     createSocket domain type protocol w3 = Some (created, w4) ->
     0 <= created ->
     exists (result status : Z) w5 (rest : list Event),
       netdClientSocket domain type protocol w3 = Some (result, w5) /\
       gained w4 w5
         (EvSend (mk_FwmarkCommand SELECT_NETWORK netId 0) created None status
            :: rest)) /\
  (forall w3 (created : Z) w4,
     setNetworkForProcess NETID_UNSET w = Some (0, w3) ->
     createSocket domain type protocol w3 = Some (created, w4) ->
     netdClientSocket domain type protocol w3 = Some (created, w4)).
Proof.
  split.
  - intros netId socketFd w1 w2 w3 created w4 Hnet Hprobe Hfd Hsend Hpin
      Hdomain Hcreate Hcreated.
    destruct (setNetworkForTarget_probed _ ForProcess _ _ _ _ _ Hnet Hprobe Hfd Hsend)
      as (closed & w3' & Hrun & Hslot & _).
    unfold setNetworkForProcess in Hpin. rewrite Hpin in Hrun.
    injection Hrun as <-. cbn [slot Z.eqb] in Hslot.
    assert (Hpinned : netIdForProcess w4 = netId).
    { apply kept_createSocket in Hcreate. destruct Hcreate as [[Hp _] _].
      congruence. }
    rewrite (netdClientSocket_cases _ _ _ _ _ _ Hcreate).
    replace (created =? -1) with false by (symmetry; apply Z.eqb_neq; lia).
    rewrite Hpinned, Hdomain. apply Z.eqb_neq in Hnet. rewrite Hnet.
    cbn [negb andb].
    destruct (setNetworkForSocket_cases netId created w4)
      as (status & w5 & Hmark & [(Hneg & _) | (_ & Hgain)]); [lia |].
    rewrite Hmark. unfold gained in *.
    destruct (status =? 0); cbn [negb].
    + exists created, status, w5, []. split; [reflexivity | exact Hgain].
    + rewrite closeFdAndSetErrno_run.
      eexists. exists status. eexists. eexists. split; [reflexivity |].
      cbn [trace with_sys log]. rewrite Hgain, <- app_assoc. reflexivity.
  - intros w3 created w4 Hpin Hcreate.
    destruct (setNetworkForTarget_unset ForProcess w) as (w3' & Hrun & Hslot & _).
    unfold setNetworkForProcess in Hpin. rewrite Hpin in Hrun.
    injection Hrun as <-. cbn [slot] in Hslot.
    assert (Hpinned : netIdForProcess w4 = NETID_UNSET).
    { apply kept_createSocket in Hcreate. destruct Hcreate as [[Hp _] _].
      congruence. }
    rewrite (netdClientSocket_cases _ _ _ _ _ _ Hcreate), Hpinned.
    cbn [Z.eqb NETID_UNSET negb andb].
    destruct (created =? -1) eqn:E; [| reflexivity].
    apply Z.eqb_eq in E. now subst.
Qed.

(** ** Reading a mark, and the marking entry points *)

(** X15. [getNetworkForSocket] never asks the daemon.  With a null result
    pointer it returns [-EBADF] whatever the descriptor, without any call.
    With a result pointer and a non-negative descriptor its only call is
    [getsockopt(SOL_SOCKET, SO_MARK)]: when that returns -1 the function
    returns the negated [errno] and leaves the pointee as it was, and
    otherwise it returns 0 and stores the network field of the mark. *)
Theorem getNetworkForSocket_outcomes (socketFd : Z) w :
  getNetworkForSocket None socketFd w = Some ((- EBADF, None), w) /\
  (forall (held queried mark : Z) w1,
     0 <= socketFd ->
     call_getsockopt socketFd SOL_SOCKET SO_MARK w = Some ((queried, mark), w1) ->
     gained w w1 [EvGetsockopt socketFd SOL_SOCKET SO_MARK queried mark] /\
     (queried = -1 ->
      getNetworkForSocket (Some held) socketFd w
        = Some ((int_neg (errno (sys w1)), Some held), w1)) /\
     (queried <> -1 ->
      getNetworkForSocket (Some held) socketFd w
        = Some ((0, Some (Fwmark_netId mark)), w1))).
Proof.
  split; [reflexivity |].
  intros held queried mark w1 Hfd Hquery.
  unfold getNetworkForSocket. rewrite (proj2 (Z.ltb_ge socketFd 0) Hfd).
  split; [| split].
  - unfold call_getsockopt in Hquery.
    destruct (getsockopt socketFd SOL_SOCKET SO_MARK (sys w)) as [[r v] s'].
    injection Hquery as <- <- <-. reflexivity.
  - intros ->. unfold bind at 1. rewrite Hquery. reflexivity.
  - intros Hq. apply Z.eqb_neq in Hq. unfold bind at 1. rewrite Hquery.
    cbv beta iota zeta. now rewrite Hq.
Qed.

(** X16. On a descriptor that is not negative (0 included) each of
    [setNetworkForSocket], [protectFromVpn] and [setNetworkForUser] makes
    exactly one call, an exchange with that descriptor attached and no
    payload, carrying SELECT_NETWORK with the network, PROTECT_FROM_VPN, and
    SELECT_FOR_USER with the uid; the daemon's status is returned as it
    is. *)
Theorem marking_sends_once (socketFd : Z) w :
  0 <= socketFd ->
  (forall netId : Z,
     let command := mk_FwmarkCommand SELECT_NETWORK netId 0 in
     let reply := FwmarkClient_send command socketFd None (sys w) in
     exists w',
       setNetworkForSocket netId socketFd w = Some (fst reply, w') /\
       gained w w' [EvSend command socketFd None (fst reply)]) /\
  (let command := mk_FwmarkCommand PROTECT_FROM_VPN 0 0 in
   let reply := FwmarkClient_send command socketFd None (sys w) in
   exists w',
     protectFromVpn socketFd w = Some (fst reply, w') /\
     gained w w' [EvSend command socketFd None (fst reply)]) /\
  (forall uid : Z,
     let command := mk_FwmarkCommand SELECT_FOR_USER 0 uid in
     let reply := FwmarkClient_send command socketFd None (sys w) in
     exists w',
       setNetworkForUser uid socketFd w = Some (fst reply, w') /\
       gained w w' [EvSend command socketFd None (fst reply)]).
Proof.
  intros Hfd. apply Z.ltb_ge in Hfd.
  unfold setNetworkForSocket, protectFromVpn, setNetworkForUser, gained.
  rewrite Hfd. repeat split; intros; rewrite call_send_run;
    eexists; split; reflexivity.
Qed.

(** ** Who writes the file's own state *)

(** X17. Only the pin operations write the pinned networks: whatever the
    wrapped [socket], [connect] and [accept4], the marking entry points,
    the access query and the three readers do, a run of theirs leaves both
    pinned networks as they were. *)
Theorem only_pins_write_the_slots :
  (forall domain type protocol : Z,
     kept same_slots (netdClientSocket domain type protocol)) /\
  (forall (sockfd : Z) (addr : option sockaddr) (addrlen : Z),
     kept same_slots (netdClientConnect sockfd addr addrlen)) /\
  (forall (sockfd : Z) (addr : option sockaddr) (addrlen : option Z) (flags : Z),
     kept same_slots (netdClientAccept4 sockfd addr addrlen flags)) /\
  (forall netId socketFd : Z, kept same_slots (setNetworkForSocket netId socketFd)) /\
  (forall socketFd : Z, kept same_slots (protectFromVpn socketFd)) /\
  (forall uid socketFd : Z, kept same_slots (setNetworkForUser uid socketFd)) /\
  (forall uid netId : Z, kept same_slots (queryUserAccess uid netId)) /\
  (forall (netId : option Z) (socketFd : Z),
     kept same_slots (getNetworkForSocket netId socketFd)) /\
  (forall netId : Z, kept same_slots (@getNetworkForResolv K netId)) /\
  kept same_slots (@getNetworkForProcess K).
Proof.
  assert (Hweaken : forall (A : Type) (m : M K A),
            kept unchanged m -> kept same_slots m).
  { intros A m Hm w a w' H. exact (proj1 (Hm w a w' H)). }
  repeat match goal with |- _ /\ _ => split end; intros; apply Hweaken.
  - apply kept_netdClientSocket.
  - apply kept_netdClientConnect.
  - apply kept_netdClientAccept4.
  - apply kept_setNetworkForSocket.
  - unfold protectFromVpn. frame.
  - unfold setNetworkForUser. frame.
  - unfold queryUserAccess. frame.
  - apply kept_getNetworkForSocket.
  - unfold getNetworkForResolv. frame.
  - unfold getNetworkForProcess. frame.
Qed.

(** X18. Nothing from the wrappers to the pin operations reassigns the
    captured libc entry points or the dispatch table: after a run of any
    of them, [libcAccept4], [libcConnect], [libcSocket] and the table are
    what they were. *)
Theorem entry_points_are_never_reassigned :
  (forall domain type protocol : Z,
     kept same_hooks (netdClientSocket domain type protocol)) /\
  (forall (sockfd : Z) (addr : option sockaddr) (addrlen : Z),
     kept same_hooks (netdClientConnect sockfd addr addrlen)) /\
  (forall (sockfd : Z) (addr : option sockaddr) (addrlen : option Z) (flags : Z),
     kept same_hooks (netdClientAccept4 sockfd addr addrlen flags)) /\
  (forall (netId : Z) (target : Target),
     kept same_hooks (setNetworkForTarget netId target)) /\
  (forall netId : Z, kept same_hooks (setNetworkForProcess netId)) /\
  (forall netId : Z, kept same_hooks (setNetworkForResolv netId)) /\
  (forall netId socketFd : Z, kept same_hooks (setNetworkForSocket netId socketFd)) /\
  (forall socketFd : Z, kept same_hooks (protectFromVpn socketFd)) /\
  (forall uid socketFd : Z, kept same_hooks (setNetworkForUser uid socketFd)) /\
  (forall uid netId : Z, kept same_hooks (queryUserAccess uid netId)) /\
  (forall (netId : option Z) (socketFd : Z),
     kept same_hooks (getNetworkForSocket netId socketFd)).
Proof.
  repeat match goal with |- _ /\ _ => split end; intros;
    try apply kept_hooks_setNetworkForTarget;
    apply kept_hooks_of_unchanged.
  - apply kept_netdClientSocket.
  - apply kept_netdClientConnect.
  - apply kept_netdClientAccept4.
  - apply kept_setNetworkForSocket.
  - unfold protectFromVpn. frame.
  - unfold setNetworkForUser. frame.
  - unfold queryUserAccess. frame.
  - apply kept_getNetworkForSocket.
Qed.

(** ** No call through a null pointer *)

Lemma runs_ret {A : Type} (a : A) : runs (@ret K A a).
Proof. intros w Hw. exists a, w. auto. Qed.

Lemma runs_bind {A B : Type} (m : M K A) (k : A -> M K B) :
  runs m -> (forall a, runs (k a)) -> runs (bind m k).
Proof.
  intros Hm Hk w Hw. destruct (Hm w Hw) as (a & w1 & Hrun & Hw1).
  destruct (Hk a w1 Hw1) as (b & w2 & Hrun2 & Hw2).
  exists b, w2. unfold bind. rewrite Hrun. auto.
Qed.

(** A step that always has an outcome and keeps the entry points runs. *)
Lemma runs_of_step {A : Type} (m : M K A) :
  (forall w, exists a w', m w = Some (a, w')) -> kept unchanged m -> runs m.
Proof.
  intros Htotal Hkept w (Ha & Hc & Hs).
  destruct (Htotal w) as (a & w' & Hrun). exists a, w'. split; [exact Hrun |].
  destruct (Hkept w a w' Hrun) as [_ (Ha' & Hc' & Hs' & _)].
  unfold installed. rewrite Ha', Hc', Hs'. auto.
Qed.

Lemma runs_get_errno : runs (@get_errno K).
Proof. apply runs_of_step; [intros w; unfold get_errno; eauto | auto with frame]. Qed.

Lemma runs_set_errno (e : Z) : runs (@set_errno K e).
Proof. apply runs_of_step; [intros w; unfold set_errno; eauto | auto with frame]. Qed.

Lemma runs_load (target : Target) : runs (@load K target).
Proof.
  apply runs_of_step; [| auto with frame].
  intros w. unfold load. destruct target; eauto.
Qed.

Lemma runs_store (target : Target) (netId : Z) : runs (@store K target netId).
Proof.
  intros w (Ha & Hc & Hs). unfold store.
  destruct target; eexists; eexists; (split; [reflexivity |]); repeat split; auto.
Qed.

Lemma runs_Stopwatch_start : runs (@Stopwatch_start K).
Proof.
  apply runs_of_step; [intros w; unfold Stopwatch_start; eauto | auto with frame].
Qed.

Lemma runs_Stopwatch_read s : runs (Stopwatch_read s).
Proof.
  apply runs_of_step; [intros w; unfold Stopwatch_read; eauto | auto with frame].
Qed.

Lemma runs_call_close (fd : Z) : runs (call_close fd).
Proof.
  apply runs_of_step; [| auto with frame].
  intros w. unfold call_close. destruct (close fd (sys w)). eauto.
Qed.

Lemma runs_call_getsockopt (fd level optname : Z) :
  runs (call_getsockopt fd level optname).
Proof.
  apply runs_of_step; [| auto with frame].
  intros w. unfold call_getsockopt.
  destruct (getsockopt fd level optname (sys w)) as [[r v] s']. eauto.
Qed.

Lemma runs_call_send (command : FwmarkCommand) (fd : Z)
    (info : option FwmarkConnectInfo) :
  runs (call_send command fd info).
Proof.
  apply runs_of_step; [| auto with frame]. intros w. apply call_send_total.
Qed.

Lemma runs_call_libcSocket (domain type protocol : Z) :
  runs (@call_libcSocket K domain type protocol).
Proof.
  intros w Hw. pose proof Hw as (_ & _ & Hs). unfold call_libcSocket.
  destruct (libcSocket w) as [f |] eqn:Hf; [| congruence].
  destruct (f domain type protocol (sys w)) as [r s'].
  eexists. eexists. split; [reflexivity |].
  destruct Hw as (Ha & Hc & _). repeat split; cbn; congruence.
Qed.

Lemma runs_call_libcConnect (sockfd : Z) (addr : option sockaddr) (addrlen : Z) :
  runs (@call_libcConnect K sockfd addr addrlen).
Proof.
  intros w Hw. pose proof Hw as (_ & Hc & _). unfold call_libcConnect.
  destruct (libcConnect w) as [f |] eqn:Hf; [| congruence].
  destruct (f sockfd addr addrlen (sys w)) as [r s'].
  eexists. eexists. split; [reflexivity |].
  destruct Hw as (Ha & _ & Hs). repeat split; cbn; congruence.
Qed.

Lemma runs_call_libcAccept4 (sockfd : Z) (addr : option sockaddr)
    (addrlen : option Z) (flags : Z) :
  runs (@call_libcAccept4 K sockfd addr addrlen flags).
Proof.
  intros w Hw. pose proof Hw as (Ha & _ & _). unfold call_libcAccept4.
  destruct (libcAccept4 w) as [f |] eqn:Hf; [| congruence].
  destruct (f sockfd addr addrlen flags (sys w)) as [[[r b] l] s'].
  eexists. eexists. split; [reflexivity |].
  destruct Hw as (_ & Hc & Hs). repeat split; cbn; congruence.
Qed.

Lemma runs_createSocket (domain type protocol : Z) :
  runs (createSocket domain type protocol).
Proof.
  unfold createSocket. destruct USE_WRAPPER; cbn [negb];
    [| apply runs_call_libcSocket].
  intros w Hw. unfold bind, propSocket_is_set.
  destruct (propSocket (propClientDispatch w)) as [f |] eqn:Hf;
    [| apply runs_call_libcSocket; exact Hw].
  unfold call_propSocket. rewrite Hf.
  destruct (f domain type protocol (sys w)) as [r s'].
  eexists. eexists. split; [reflexivity |]. exact Hw.
Qed.

Lemma runs_attemptConnect (sockfd : Z) (addr : option sockaddr) (addrlen : Z) :
  USE_WRAPPER = false \/ addr <> None ->
  runs (attemptConnect sockfd addr addrlen).
Proof.
  intros Hdefined. unfold attemptConnect.
  destruct USE_WRAPPER; [| apply runs_call_libcConnect].
  destruct Hdefined as [Hbuild | Haddr]; [discriminate |].
  destruct addr as [a |]; [| congruence].
  intros w Hw. unfold bind at 1, deref.
  destruct (shouldSetFwmark (sa_family a));
    [| apply runs_call_libcConnect; exact Hw].
  unfold bind, propConnect_is_set.
  destruct (propConnect (propClientDispatch w)) as [f |] eqn:Hf;
    [| apply runs_call_libcConnect; exact Hw].
  unfold call_propConnect. rewrite Hf.
  destruct (f sockfd (Some a) addrlen (sys w)) as [r s'].
  eexists. eexists. split; [reflexivity |]. exact Hw.
Qed.

Create HintDb total.

#[local] Hint Resolve runs_ret runs_get_errno runs_set_errno runs_load
  runs_store runs_Stopwatch_start runs_Stopwatch_read runs_call_close
  runs_call_getsockopt runs_call_send runs_call_libcSocket
  runs_call_libcConnect runs_call_libcAccept4 runs_createSocket : total.

(** Splits a goal [runs m] along the binds and the tests of [m]. *)
Ltac total :=
  repeat first
    [ solve [auto with total]
    | apply runs_bind; [| intros ?]
    | match goal with
      | |- runs (if ?b then _ else _) => destruct b
      | |- runs (match ?x with Some _ => _ | None => _ end) => destruct x
      | |- runs (let '(_, _) := ?x in _) => destruct x
      end ].

Lemma runs_closeFdAndSetErrno (fd error : Z) : runs (closeFdAndSetErrno fd error).
Proof. unfold closeFdAndSetErrno. total. Qed.

Lemma runs_setNetworkForSocket (netId socketFd : Z) :
  runs (setNetworkForSocket netId socketFd).
Proof. unfold setNetworkForSocket. total. Qed.

#[local] Hint Resolve runs_closeFdAndSetErrno runs_setNetworkForSocket : total.

Lemma setNetworkForTarget_total (netId : Z) (target : Target) w :
  exists (result : Z) w', setNetworkForTarget netId target w = Some (result, w').
Proof.
  destruct (Z.eq_dec netId NETID_UNSET) as [-> | Hnet].
  - destruct (setNetworkForTarget_unset target w) as (w' & Hrun & _). eauto.
  - destruct (probeSocket_total w) as (socketFd & w1 & Hprobe & _).
    destruct (Z_lt_le_dec socketFd 0) as [Hneg | Hfd].
    + rewrite (setNetworkForTarget_unprobed _ target _ _ _ Hnet Hprobe Hneg).
      eauto.
    + destruct (call_send_total (mk_FwmarkCommand SELECT_NETWORK netId 0)
                  socketFd None w1) as (error & w2 & Hsend).
      destruct (setNetworkForTarget_probed _ target _ _ _ _ _ Hnet Hprobe Hfd Hsend)
        as (closed & w3 & Hrun & _).
      eauto.
Qed.

(** X19. Once the three libc entry points are captured, no wrapper calls
    through a null pointer: the wrapped [socket] and [accept4] always have
    an outcome, and so has the wrapped [connect] in a build without
    [USE_WRAPPER], or with a non-null address in a build with it.  The pin
    operations, the marking entry points, the access query and the mark
    reader need no installation at all: they have an outcome in every
    world.  Without a captured [socket], in a build without [USE_WRAPPER],
    the wrapped [socket] has none. *)
Theorem no_null_call_once_installed w :
  (installed w ->
   (forall domain type protocol : Z,
      exists (result : Z) w',
        netdClientSocket domain type protocol w = Some (result, w')) /\
   (forall (sockfd : Z) (addr : option sockaddr) (addrlen : Z),
      USE_WRAPPER = false \/ addr <> None ->
      exists (result : Z) w',
        netdClientConnect sockfd addr addrlen w = Some (result, w')) /\
   (forall (sockfd : Z) (addr : option sockaddr) (addrlen : option Z)
           (flags : Z),
      exists result w',
        netdClientAccept4 sockfd addr addrlen flags w = Some (result, w'))) /\
  (forall (netId : Z) (target : Target),
     exists (result : Z) w',
       setNetworkForTarget netId target w = Some (result, w')) /\
  (forall netId socketFd : Z,
     exists (result : Z) w',
       setNetworkForSocket netId socketFd w = Some (result, w')) /\
  (forall socketFd : Z,
     exists (result : Z) w', protectFromVpn socketFd w = Some (result, w')) /\
  (forall uid socketFd : Z,
     exists (result : Z) w',
       setNetworkForUser uid socketFd w = Some (result, w')) /\
  (forall uid netId : Z,
     exists (result : Z) w', queryUserAccess uid netId w = Some (result, w')) /\
  (forall (netId : option Z) (socketFd : Z),
     exists result w',
       getNetworkForSocket netId socketFd w = Some (result, w')) /\
  (USE_WRAPPER = false -> libcSocket w = None ->
   forall domain type protocol : Z,
     netdClientSocket domain type protocol w = None).
Proof.
  assert (Hdrop : forall (A : Type) (m : M K A),
            runs m -> installed w -> exists a w', m w = Some (a, w')).
  { intros A m Hm Hw. destruct (Hm w Hw) as (a & w' & Hrun & _). eauto. }
  split; [intros Hw; split; [| split] |].
  - intros domain type protocol. apply Hdrop; [| exact Hw].
    unfold netdClientSocket. total.
  - intros sockfd addr addrlen Hdefined. apply Hdrop; [| exact Hw].
    pose proof (runs_attemptConnect sockfd addr addrlen Hdefined).
    unfold netdClientConnect. cbv zeta. total.
  - intros sockfd addr addrlen flags. apply Hdrop; [| exact Hw].
    unfold netdClientAccept4. cbv zeta. total.
  - split; [intros; apply setNetworkForTarget_total |].
    assert (Hsend : forall command fd,
              exists (result : Z) w', call_send command fd None w = Some (result, w'))
      by (intros; apply call_send_total).
    split; [| split; [| split; [| split; [| split]]]].
    + intros netId socketFd. unfold setNetworkForSocket.
      destruct (socketFd <? 0); [unfold ret; eauto | apply Hsend].
    + intros socketFd. unfold protectFromVpn.
      destruct (socketFd <? 0); [unfold ret; eauto | apply Hsend].
    + intros uid socketFd. unfold setNetworkForUser.
      destruct (socketFd <? 0); [unfold ret; eauto | apply Hsend].
    + intros uid netId. apply Hsend.
    + intros netId socketFd. unfold getNetworkForSocket.
      destruct netId as [held |]; [| unfold ret; eauto].
      destruct (socketFd <? 0); [unfold ret; eauto |].
      unfold bind, call_getsockopt.
      destruct (getsockopt socketFd SOL_SOCKET SO_MARK (sys w)) as [[r v] s'].
      destruct (r =? -1); unfold get_errno, ret; eauto.
    + intros Hbuild Hnone domain type protocol.
      unfold netdClientSocket, bind, createSocket. rewrite Hbuild.
      cbn [negb]. unfold call_libcSocket. now rewrite Hnone.
Qed.

(** ** Who reads the pinned networks *)

Lemma blind_ret {A : Type} (target : Target) (a : A) :
  blind_to target (@ret K A a).
Proof. intros netId w. reflexivity. Qed.

Lemma blind_bind {A B : Type} (target : Target) (m : M K A) (k : A -> M K B) :
  blind_to target m -> (forall a, blind_to target (k a)) ->
  blind_to target (bind m k).
Proof.
  intros Hm Hk netId w. unfold bind. rewrite Hm.
  destruct (m w) as [[a w1] |]; [apply Hk | reflexivity].
Qed.

(** Settles [blind_to] for one step: both slots, then the oracle's answer. *)
Ltac blind_step :=
  let netId := fresh "netId" in
  let w := fresh "w" in
  intros netId w;
  match goal with
  | |- context [pinned_to ?target _ _] => destruct target
  end;
  cbn [pinned_to sys libcAccept4 libcConnect libcSocket propClientDispatch];
  repeat match goal with
         | |- context [match ?x with _ => _ end] => destruct x eqn:?
         end;
  first [reflexivity | unfold log, with_sys; cbn; congruence].

Lemma blind_undefined {A : Type} (target : Target) :
  blind_to target (@undefined K A).
Proof. intros netId w. reflexivity. Qed.

Lemma blind_get_errno (target : Target) : blind_to target (@get_errno K).
Proof. unfold get_errno. blind_step. Qed.

Lemma blind_set_errno (target : Target) (e : Z) :
  blind_to target (@set_errno K e).
Proof. unfold set_errno. blind_step. Qed.

Lemma blind_load_other (target other : Target) :
  other <> target -> blind_to target (@load K other).
Proof.
  intros Hne netId w. unfold load.
  destruct target, other; congruence || reflexivity.
Qed.

Lemma blind_deref {A : Type} (target : Target) (p : option A) :
  blind_to target (@deref K A p).
Proof. intros netId w. unfold deref. destruct p; reflexivity. Qed.

Lemma blind_propConnect_is_set (target : Target) :
  blind_to target (@propConnect_is_set K).
Proof. unfold propConnect_is_set. blind_step. Qed.

Lemma blind_propSocket_is_set (target : Target) :
  blind_to target (@propSocket_is_set K).
Proof. unfold propSocket_is_set. blind_step. Qed.

Lemma blind_libcSocket_is_set (target : Target) :
  blind_to target (@libcSocket_is_set K).
Proof. unfold libcSocket_is_set. blind_step. Qed.

Lemma blind_Stopwatch_start (target : Target) :
  blind_to target (@Stopwatch_start K).
Proof. unfold Stopwatch_start. blind_step. Qed.

Lemma blind_Stopwatch_read (target : Target) s :
  blind_to target (Stopwatch_read s).
Proof. unfold Stopwatch_read. blind_step. Qed.

Lemma blind_call_close (target : Target) (fd : Z) :
  blind_to target (call_close fd).
Proof. unfold call_close. blind_step. Qed.

Lemma blind_call_getsockopt (target : Target) (fd level optname : Z) :
  blind_to target (call_getsockopt fd level optname).
Proof. unfold call_getsockopt. blind_step. Qed.

Lemma blind_call_send (target : Target) (command : FwmarkCommand) (fd : Z)
    (info : option FwmarkConnectInfo) :
  blind_to target (call_send command fd info).
Proof. unfold call_send. blind_step. Qed.

Lemma blind_call_socket (target : Target) (domain type protocol : Z) :
  blind_to target (call_socket domain type protocol).
Proof. unfold call_socket. blind_step. Qed.

Lemma blind_call_libcSocket (target : Target) (domain type protocol : Z) :
  blind_to target (@call_libcSocket K domain type protocol).
Proof. unfold call_libcSocket, undefined. blind_step. Qed.

Lemma blind_call_propSocket (target : Target) (domain type protocol : Z) :
  blind_to target (@call_propSocket K domain type protocol).
Proof. unfold call_propSocket, undefined. blind_step. Qed.

Lemma blind_call_libcConnect (target : Target) (sockfd : Z)
    (addr : option sockaddr) (addrlen : Z) :
  blind_to target (@call_libcConnect K sockfd addr addrlen).
Proof. unfold call_libcConnect, undefined. blind_step. Qed.

Lemma blind_call_propConnect (target : Target) (sockfd : Z)
    (addr : option sockaddr) (addrlen : Z) :
  blind_to target (@call_propConnect K sockfd addr addrlen).
Proof. unfold call_propConnect, undefined. blind_step. Qed.

Lemma blind_call_libcAccept4 (target : Target) (sockfd : Z)
    (addr : option sockaddr) (addrlen : option Z) (flags : Z) :
  blind_to target (@call_libcAccept4 K sockfd addr addrlen flags).
Proof. unfold call_libcAccept4, undefined. blind_step. Qed.

Create HintDb blind.

#[local] Hint Resolve blind_ret blind_undefined blind_get_errno blind_set_errno
  blind_deref blind_propConnect_is_set blind_propSocket_is_set
  blind_libcSocket_is_set blind_Stopwatch_start blind_Stopwatch_read
  blind_call_close blind_call_getsockopt blind_call_send blind_call_socket
  blind_call_libcSocket blind_call_propSocket blind_call_libcConnect
  blind_call_propConnect blind_call_libcAccept4 : blind.

(** Splits a goal [blind_to target m] along the binds and the tests of [m]. *)
Ltac blind :=
  repeat first
    [ solve [auto with blind]
    | apply blind_bind; [| intros ?]
    | match goal with
      | |- blind_to _ (if ?b then _ else _) => destruct b
      | |- blind_to _ (match ?x with Some _ => _ | None => _ end) => destruct x
      | |- blind_to _ (let '(_, _) := ?x in _) => destruct x
      end ].

Lemma blind_closeFdAndSetErrno (target : Target) (fd error : Z) :
  blind_to target (closeFdAndSetErrno fd error).
Proof. unfold closeFdAndSetErrno. blind. Qed.

Lemma blind_setNetworkForSocket (target : Target) (netId socketFd : Z) :
  blind_to target (setNetworkForSocket netId socketFd).
Proof. unfold setNetworkForSocket. blind. Qed.

Lemma blind_createSocket (target : Target) (domain type protocol : Z) :
  blind_to target (createSocket domain type protocol).
Proof. unfold createSocket. blind. Qed.

Lemma blind_attemptConnect (target : Target) (sockfd : Z)
    (addr : option sockaddr) (addrlen : Z) :
  blind_to target (attemptConnect sockfd addr addrlen).
Proof. unfold attemptConnect. blind. Qed.

#[local] Hint Resolve blind_closeFdAndSetErrno blind_setNetworkForSocket
  blind_createSocket blind_attemptConnect : blind.

(** X20. The wrapped [connect] and [accept4], the marking entry points,
    the access query and the mark reader never read the pinned networks:
    run with either slot holding any other network, each gives the same
    result, makes the same calls and leaves the same state, the slot
    apart. *)
Theorem pins_are_read_by_socket_and_lookup_only (target : Target) :
  (forall (sockfd : Z) (addr : option sockaddr) (addrlen : Z),
     blind_to target (netdClientConnect sockfd addr addrlen)) /\
  (forall (sockfd : Z) (addr : option sockaddr) (addrlen : option Z) (flags : Z),
     blind_to target (netdClientAccept4 sockfd addr addrlen flags)) /\
  (forall netId socketFd : Z,
     blind_to target (setNetworkForSocket netId socketFd)) /\
  (forall socketFd : Z, blind_to target (protectFromVpn socketFd)) /\
  (forall uid socketFd : Z, blind_to target (setNetworkForUser uid socketFd)) /\
  (forall uid netId : Z, blind_to target (queryUserAccess uid netId)) /\
  (forall (netId : option Z) (socketFd : Z),
     blind_to target (getNetworkForSocket netId socketFd)).
Proof.
  repeat match goal with |- _ /\ _ => split end; intros.
  - unfold netdClientConnect. cbv zeta. blind.
  - unfold netdClientAccept4. cbv zeta. blind.
  - apply blind_setNetworkForSocket.
  - unfold protectFromVpn. blind.
  - unfold setNetworkForUser. blind.
  - unfold queryUserAccess. blind.
  - unfold getNetworkForSocket. blind.
Qed.

(** X21. The resolver's pinned network plays no part in socket creation:
    the wrapped [socket] and [getNetworkForProcess] give the same result,
    make the same calls and leave the same state whatever network the
    resolver slot holds. *)
Theorem resolver_pin_does_not_reach_sockets :
  (forall domain type protocol : Z,
     blind_to ForResolv (netdClientSocket domain type protocol)) /\
  blind_to ForResolv (@getNetworkForProcess K).
Proof.
  assert (Hload : blind_to ForResolv (@load K ForProcess))
    by (apply blind_load_other; discriminate).
  split; intros.
  - unfold netdClientSocket. blind.
  - exact Hload.
Qed.

End Properties.

(** * The two builds *)

Section Builds.

Context {K : Type} (P : Platform K).

(** X22. What [USE_WRAPPER] changes.  The wrapped [accept4] is the same
    function in both builds.  While the dispatch table has no [propSocket],
    the wrapped [socket] is the same in both builds; while it has no
    [propConnect], or for a destination whose family does not qualify for
    marking, so is the wrapped [connect] on a non-null address. *)
Theorem builds_agree_without_dispatch (w : World K) :
  (forall (sockfd : Z) (addr : option sockaddr) (addrlen : option Z) (flags : Z),
     @netdClientAccept4 K (with_USE_WRAPPER true P) sockfd addr addrlen flags w =
     @netdClientAccept4 K (with_USE_WRAPPER false P) sockfd addr addrlen flags w) /\
  (propSocket (propClientDispatch w) = None ->
   forall domain type protocol : Z,
     @netdClientSocket K (with_USE_WRAPPER true P) domain type protocol w =
     @netdClientSocket K (with_USE_WRAPPER false P) domain type protocol w) /\
  (forall (sockfd : Z) (a : sockaddr) (addrlen : Z),
     propConnect (propClientDispatch w) = None \/
     shouldSetFwmark (sa_family a) = false ->
     @netdClientConnect K (with_USE_WRAPPER true P) sockfd (Some a) addrlen w =
     @netdClientConnect K (with_USE_WRAPPER false P) sockfd (Some a) addrlen w).
Proof.
  split; [reflexivity |]. split.
  - intros Hnone domain type protocol.
    unfold netdClientSocket, bind at 1 3, createSocket.
    cbn [USE_WRAPPER with_USE_WRAPPER negb].
    unfold bind at 1, propSocket_is_set. rewrite Hnone. reflexivity.
  - intros sockfd a addrlen Hplain.
    assert (Hattempt : forall w0,
              propClientDispatch w0 = propClientDispatch w ->
              @attemptConnect K (with_USE_WRAPPER true P) sockfd (Some a) addrlen w0 =
              @attemptConnect K (with_USE_WRAPPER false P) sockfd (Some a) addrlen w0).
    { intros w0 Hsame. unfold attemptConnect.
      cbn [USE_WRAPPER with_USE_WRAPPER shouldSetFwmark].
      unfold bind at 1, deref.
      destruct Hplain as [Hnone | Hfamily].
      - destruct (shouldSetFwmark (sa_family a)); [| reflexivity].
        unfold bind, propConnect_is_set. now rewrite Hsame, Hnone.
      - now rewrite Hfamily. }
    unfold netdClientConnect. cbv zeta.
    change (@connectShouldSetFwmark K (with_USE_WRAPPER true P) sockfd (Some a))
      with (@connectShouldSetFwmark K (with_USE_WRAPPER false P) sockfd (Some a)).
    destruct (@connectShouldSetFwmark K (with_USE_WRAPPER false P) sockfd (Some a)).
    + unfold bind at 1 10.
      change (@call_send K (with_USE_WRAPPER true P)) with
        (@call_send K (with_USE_WRAPPER false P)).
      destruct (@call_send K (with_USE_WRAPPER false P)
                  (mk_FwmarkCommand ON_CONNECT 0 0) sockfd None w)
        as [[error w0] |] eqn:Hsend; [| reflexivity].
      destruct (negb (error =? 0)); [reflexivity |].
      assert (Hsame : propClientDispatch w0 = propClientDispatch w).
      { apply (@kept_call_send K (with_USE_WRAPPER false P)) in Hsend.
        exact (proj2 (proj2 (proj2 (proj2 Hsend)))). }
      unfold bind at 1, Stopwatch_start. unfold bind at 1.
      rewrite (Hattempt w0 Hsame). reflexivity.
    + unfold bind at 1, Stopwatch_start. unfold bind at 1.
      rewrite (Hattempt w eq_refl). reflexivity.
Qed.

End Builds.

(** * Runs on the concrete platform *)

Section Runs.

Import Demo.

#[local] Existing Instance platform.

(** Socket creation in a process pinned to network 50 whose daemon
    refuses SELECT_NETWORK with -13: an IPv6 socket is created, refused,
    closed; a local socket passes unmarked. *)
Lemma netdClientSocket_marking_witness :
  observe (netdClientSocket 10 1 0 (world 50 0 (refusing SELECT_NETWORK (-13))))
    = Some (-1, 13, [3], (50, 0),
            [EvLibcSocket 10 1 0 4;
             EvSend (mk_FwmarkCommand SELECT_NETWORK 50 0) 4 None (-13);
             EvClose 4 0]) /\
  (exists w3,
     netdClientSocket 10 1 0 (world 50 0 (refusing SELECT_NETWORK (-13)))
       = Some (-1, w3) /\
     errno (sys w3) = 13) /\
  (exists w1 created,
     netdClientSocket 1 1 0 (world 50 0 (refusing SELECT_NETWORK (-13)))
       = Some (4, w1) /\
     trace w1 = [created] /\ is_send created = false).
Proof.
  split; [reflexivity |]. split.
  - destruct (@netdClientSocket_marking _ platform 10 1 0
                (world 50 0 (refusing SELECT_NETWORK (-13))) 4 _
                eq_refl ltac:(discriminate)) as [Hrefused _].
    destruct (Hrefused (-13) _ ltac:(discriminate) eq_refl eq_refl
                ltac:(discriminate))
      as (closed & w3 & Hrun & Herrno & _).
    exists w3. split; [exact Hrun | exact Herrno].
  - destruct (@netdClientSocket_marking _ platform 1 1 0
                (world 50 0 (refusing SELECT_NETWORK (-13))) 4 _
                eq_refl ltac:(discriminate)) as [_ Hskipped].
    destruct (Hskipped (or_intror eq_refl)) as (Hrun & created & Htrace & Hkind).
    eexists. exists created. split; [exact Hrun |].
    split; [exact Htrace | exact Hkind].
Defined.

(** A connect on descriptor 3 to an IPv4 destination, the daemon refusing
    ON_CONNECT with -1. *)
Lemma netdClientConnect_on_connect_refused_witness :
  observe (netdClientConnect 3 (Some inet_addr) 16
             (world 0 0 (refusing ON_CONNECT (-1))))
    = Some (-1, 1, [3], (0, 0),
            [EvSend (mk_FwmarkCommand ON_CONNECT 0 0) 3 None (-1)]) /\
  exists w2,
    netdClientConnect 3 (Some inet_addr) 16 (world 0 0 (refusing ON_CONNECT (-1)))
      = Some (-1, w2) /\
    errno (sys w2) = 1 /\
    trace w2 = [EvSend (mk_FwmarkCommand ON_CONNECT 0 0) 3 None (-1)].
Proof.
  split; [reflexivity |].
  destruct (@netdClientConnect_on_connect_refused _ platform 3 inet_addr 16
              (world 0 0 (refusing ON_CONNECT (-1))) (-1) _
              ltac:(lia) eq_refl eq_refl ltac:(discriminate))
    as (w2 & Hrun & Herrno & Htrace & _).
  exists w2. split; [exact Hrun |]. split; [exact Herrno | exact Htrace].
Defined.

(** Pinning the process network, from a process pinned to 7: unset
    clears; 50 is refused with -13 and 7 stays; 50 is granted and stored. *)
Lemma setNetworkForTarget_pins_witness :
  observe (setNetworkForProcess 50 (world 7 0 (refusing SELECT_NETWORK (-13))))
    = Some (-13, 11, [3], (7, 0),
            [EvLibcSocket 10 524290 0 4;
             EvSend (mk_FwmarkCommand SELECT_NETWORK 50 0) 4 None (-13);
             EvClose 4 0]) /\
  (exists w',
     setNetworkForTarget NETID_UNSET ForProcess (world 7 0 granting)
       = Some (0, w') /\
     netIdForProcess w' = NETID_UNSET) /\
  (exists w3,
     setNetworkForTarget 50 ForProcess (world 7 0 (refusing SELECT_NETWORK (-13)))
       = Some (-13, w3) /\
     netIdForProcess w3 = 7) /\
  (exists w3,
     setNetworkForTarget 50 ForResolv (world 7 0 granting) = Some (0, w3) /\
     netIdForResolv w3 = 50).
Proof.
  split; [reflexivity |]. split; [| split].
  - destruct (@setNetworkForTarget_pins _ platform ForProcess
                (world 7 0 granting)) as (_ & (w' & Hrun & Hslot & _) & _).
    exists w'. split; [exact Hrun | exact Hslot].
  - destruct (@setNetworkForTarget_pins _ platform ForProcess
                (world 7 0 (refusing SELECT_NETWORK (-13))))
      as (_ & _ & Hprobe & _).
    destruct (Hprobe 50 4 _ (-13) _ ltac:(discriminate) eq_refl ltac:(lia)
                eq_refl)
      as (closed & w3 & Hrun & _ & Hkept & _).
    exists w3. split; [exact Hrun |]. exact (Hkept ltac:(discriminate)).
  - destruct (@setNetworkForTarget_pins _ platform ForResolv
                (world 7 0 granting)) as (_ & _ & Hprobe & _).
    destruct (Hprobe 50 4 _ 0 _ ltac:(discriminate) eq_refl ltac:(lia) eq_refl)
      as (closed & w3 & Hrun & Hstored & _).
    exists w3. split; [exact Hrun |]. exact (Hstored eq_refl).
Defined.

(** A connect on the closed descriptor 5 to an IPv6 destination: ON_CONNECT
    is granted, [connect] fails with EBADF (9), the completion report is
    answered -5 and spoils [errno]; the caller sees -1 and 9. *)
Lemma netdClientConnect_outcome_is_connects_witness :
  observe (netdClientConnect 5 (Some inet6_addr) 28
             (world 0 0 (refusing ON_CONNECT_COMPLETE (-5))))
    = Some (-1, 9, [3], (0, 0),
            [EvSend (mk_FwmarkCommand ON_CONNECT 0 0) 5 None 0;
             EvLibcConnect 5 (Some inet6_addr) 28 (-1);
             EvSend (mk_FwmarkCommand ON_CONNECT_COMPLETE 0 0) 5
               (Some (mk_FwmarkConnectInfo 9 5 inet6_addr)) (-5)]) /\
  exists w2,
    netdClientConnect 5 (Some inet6_addr) 28
      (world 0 0 (refusing ON_CONNECT_COMPLETE (-5))) = Some (-1, w2) /\
    errno (sys w2) = 9.
Proof.
  split; [reflexivity |].
  destruct (@netdClientConnect_outcome_is_connects _ platform 5
              (Some inet6_addr) 28
              (world 0 0 (refusing ON_CONNECT_COMPLETE (-5))) _ (-1) _
              (or_intror (conj eq_refl eq_refl)) eq_refl)
    as (w2 & reported & Hrun & Herrno & _).
  exists w2. split; [exact Hrun | exact Herrno].
Defined.

(** Accepting on descriptor 3 with the daemon refusing ON_ACCEPT with -13,
    once with an address buffer and once without. *)
Lemma netdClientAccept4_on_accept_refused_witness :
  observe (netdClientAccept4 3 None None 0 (world 0 0 (refusing ON_ACCEPT (-13))))
    = Some ((-1, None, None), 13, [3], (0, 0),
            [EvLibcAccept4 3 None None 0 4;
             EvGetsockopt 4 SOL_SOCKET SO_DOMAIN 0 10;
             EvSend (mk_FwmarkCommand ON_ACCEPT 0 0) 4 None (-13);
             EvClose 4 0]) /\
  (exists closed w3,
     netdClientAccept4 3 (Some unix_addr) (Some 16) 0
       (world 0 0 (refusing ON_ACCEPT (-13)))
       = Some ((-1, Some peer, Some 28), w3) /\
     errno (sys w3) = 13 /\
     trace w3 =
       [EvLibcAccept4 3 (Some unix_addr) (Some 16) 0 4;
        EvSend (mk_FwmarkCommand ON_ACCEPT 0 0) 4 None (-13);
        EvClose 4 closed]) /\
  (exists w3,
     netdClientAccept4 3 None None 0 (world 0 0 (refusing ON_ACCEPT (-13)))
       = Some ((-1, None, None), w3) /\
     errno (sys w3) = 13).
Proof.
  split; [reflexivity |]. split.
  - destruct (@netdClientAccept4_on_accept_refused _ platform 3
                (Some unix_addr) (Some 16) 0
                (world 0 0 (refusing ON_ACCEPT (-13))) 4 _ _ _
                eq_refl ltac:(discriminate)) as [Hbuffer _].
    destruct (Hbuffer peer (-13) _ eq_refl eq_refl eq_refl ltac:(discriminate))
      as (closed & w3 & Hrun & Herrno & Htrace).
    exists closed, w3. split; [exact Hrun |]. split; [exact Herrno | exact Htrace].
  - destruct (@netdClientAccept4_on_accept_refused _ platform 3 None None 0
                (world 0 0 (refusing ON_ACCEPT (-13))) 4 _ _ _
                eq_refl ltac:(discriminate)) as [_ Hquery].
    destruct (Hquery 0 10 _ (-13) _ eq_refl eq_refl ltac:(discriminate)
                eq_refl eq_refl ltac:(discriminate))
      as (closed & w3 & Hrun & Herrno & _).
    exists w3. split; [exact Hrun | exact Herrno].
Defined.

(** The four entry points on descriptor -3. *)
Lemma negative_descriptor_is_EBADF_witness :
  -3 < 0 /\
  setNetworkForSocket 50 (-3) (world 0 0 granting)
    = Some (-9, world 0 0 granting) /\
  protectFromVpn (-3) (world 0 0 granting) = Some (-9, world 0 0 granting) /\
  setNetworkForUser 1000 (-3) (world 0 0 granting)
    = Some (-9, world 0 0 granting) /\
  getNetworkForSocket (Some 0) (-3) (world 0 0 granting)
    = Some ((-9, Some 0), world 0 0 granting).
Proof.
  split; [lia |].
  destruct (@negative_descriptor_is_EBADF _ platform (-3) (world 0 0 granting)
              ltac:(lia)) as (Hsocket & Hvpn & Huser & Hget).
  split; [exact (Hsocket 50) |]. split; [exact Hvpn |].
  split; [exact (Huser 1000) | exact (Hget (Some 0))].
Defined.

(** A connect on descriptor 3 to an IPv4 destination, which is marked but
    not reported: ON_CONNECT, then [connect], then nothing. *)
Lemma netdClientConnect_no_completion_report_witness :
  observe (netdClientConnect 3 (Some inet_addr) 16 (world 0 0 granting))
    = Some (0, 11, [3], (0, 0),
            [EvSend (mk_FwmarkCommand ON_CONNECT 0 0) 3 None 0;
             EvLibcConnect 3 (Some inet_addr) 16 0]) /\
  exists w1,
    netdClientConnect 3 (Some inet_addr) 16 (world 0 0 granting) = Some (0, w1) /\
    trace w1 =
      [EvSend (mk_FwmarkCommand ON_CONNECT 0 0) 3 None 0;
       EvLibcConnect 3 (Some inet_addr) 16 0].
Proof.
  split; [reflexivity |].
  assert (Hfamily : forall a, Some inet_addr = Some a ->
                      shouldReportConnectComplete (sa_family a) = false).
  { intros a Ha. injection Ha as <-. reflexivity. }
  destruct (@netdClientConnect_no_completion_report _ platform 3
              (Some inet_addr) 16 (world 0 0 granting) _ _
              (or_intror (conj eq_refl eq_refl)) eq_refl Hfamily)
    as (Hrun & _).
  eexists. split; [exact Hrun | reflexivity].
Defined.

(** A connect with a null address on descriptor 3: forwarded to [connect]
    (which answers EFAULT, 14) in the build without [USE_WRAPPER], without
    outcome in the build with it. *)
Lemma netdClientConnect_null_address_with_wrapper_witness :
  observe (netdClientConnect (P := platform) 3 None 0 (world 0 0 granting))
    = Some (-1, 14, [3], (0, 0), [EvLibcConnect 3 None 0 (-1)]) /\
  netdClientConnect (P := wrapper_platform) 3 None 0 (world 0 0 granting) = None.
Proof.
  split; [reflexivity |].
  exact (@netdClientConnect_null_address_with_wrapper _ wrapper_platform 3 0
           (world 0 0 granting) eq_refl).
Defined.

(** The build with [USE_WRAPPER] and the vendor's table: an IPv6 socket
    and an unmarked IPv6 connect go through the table. *)
Example netdClientSocket_through_dispatch :
  observe (netdClientSocket (P := wrapper_platform) 10 1 0
             (vendor_world 0 0 granting))
    = Some (4, 0, [4; 3], (0, 0), [EvPropSocket 10 1 0 4]).
Proof. reflexivity. Qed.

Example netdClientConnect_through_dispatch :
  observe (netdClientConnect (P := wrapper_platform) (-1) (Some inet6_addr) 28
             (vendor_world 0 0 granting))
    = Some (-1, 9, [3], (0, 0), [EvPropConnect (-1) (Some inet6_addr) 28 (-1)]).
Proof. reflexivity. Qed.

(** ** Runs for the further properties *)

(** A socket of a family the kernel does not have. *)
Lemma netdClientSocket_creation_failure_witness :
  observe (netdClientSocket 99 1 0 (world 50 0 granting))
    = Some (-1, 97, [3], (50, 0), [EvLibcSocket 99 1 0 (-1)]) /\
  exists w1,
    netdClientSocket 99 1 0 (world 50 0 granting) = Some (-1, w1) /\
    errno (sys w1) = 97.
Proof.
  split; [reflexivity |].
  eexists. split;
    [exact (@netdClientSocket_creation_failure _ platform 99 1 0
              (world 50 0 granting) _ eq_refl)
    | reflexivity].
Defined.

(** An IPv6 socket in a process pinned to network 50, the daemon
    granting. *)
Lemma netdClientSocket_mark_granted_witness :
  observe (netdClientSocket 10 1 0 (world 50 0 granting))
    = Some (4, 11, [4; 3], (50, 0),
            [EvLibcSocket 10 1 0 4;
             EvSend (mk_FwmarkCommand SELECT_NETWORK 50 0) 4 None 0]) /\
  exists w2,
    netdClientSocket 10 1 0 (world 50 0 granting) = Some (4, w2) /\
    trace w2 =
      [EvLibcSocket 10 1 0 4;
       EvSend (mk_FwmarkCommand SELECT_NETWORK 50 0) 4 None 0].
Proof.
  split; [reflexivity |].
  destruct (@netdClientSocket_mark_granted _ platform 10 1 0
              (world 50 0 granting) 4 _ _ eq_refl ltac:(lia)
              ltac:(discriminate) eq_refl eq_refl) as [Hrun Hgain].
  eexists. split; [exact Hrun | exact Hgain].
Defined.

(** The refused IPv6 socket again: -1, and the last call closes 4. *)
Lemma netdClientSocket_never_leaks_witness :
  exists w' (before : list Event) (closed : Z),
    netdClientSocket 10 1 0 (world 50 0 (refusing SELECT_NETWORK (-13)))
      = Some (-1, w') /\
    trace w' = [EvLibcSocket 10 1 0 4] ++ before ++ [EvClose 4 closed].
Proof.
  destruct (@netdClientSocket_never_leaks _ platform 10 1 0
              (world 50 0 (refusing SELECT_NETWORK (-13))) 4 _ eq_refl)
    as (result & w' & calls & Hrun & Hgain & Hcases).
  assert (Hresult : result = -1).
  { pose proof (f_equal (option_map fst) Hrun) as H. cbv in H.
    now injection H as <-. }
  subst result.
  destruct Hcases as [[Hbad _] | (_ & _ & before & closed & -> & _)];
    [discriminate |].
  exists w', before, closed. split; [exact Hrun | exact Hgain].
Defined.

(** Accepting on a descriptor that is not open. *)
Lemma netdClientAccept4_failure_witness :
  observe (netdClientAccept4 9 None None 0 (world 0 0 granting))
    = Some ((-1, None, None), 9, [3], (0, 0), [EvLibcAccept4 9 None None 0 (-1)]) /\
  exists w1,
    netdClientAccept4 9 None None 0 (world 0 0 granting)
      = Some ((-1, None, None), w1) /\
    errno (sys w1) = 9.
Proof.
  split; [reflexivity |].
  eexists. split;
    [exact (@netdClientAccept4_failure _ platform 9 None None 0
              (world 0 0 granting) _ _ _ eq_refl)
    | reflexivity].
Defined.

(** Accepting where marking is switched off, with and without a buffer. *)
Lemma netdClientAccept4_unmarked_witness :
  (exists w1,
     netdClientAccept4 (P := unmarked_platform) 3 (Some unix_addr) (Some 16) 0
       (world 0 0 granting) = Some ((4, Some peer, Some 28), w1) /\
     trace w1 = [EvLibcAccept4 3 (Some unix_addr) (Some 16) 0 4]) /\
  (exists wq,
     netdClientAccept4 (P := unmarked_platform) 3 None None 0
       (world 0 0 granting) = Some ((4, None, None), wq) /\
     trace wq =
       [EvLibcAccept4 3 None None 0 4; EvGetsockopt 4 SOL_SOCKET SO_DOMAIN 0 10]).
Proof.
  split.
  - destruct (@netdClientAccept4_unmarked _ unmarked_platform 3
                (Some unix_addr) (Some 16) 0 (world 0 0 granting) 4 _ _ _
                eq_refl ltac:(discriminate)) as [Hbuffer _].
    eexists. split; [exact (Hbuffer peer eq_refl eq_refl) | reflexivity].
  - destruct (@netdClientAccept4_unmarked _ unmarked_platform 3 None None 0
                (world 0 0 granting) 4 _ _ _ eq_refl ltac:(discriminate))
      as [_ Hquery].
    destruct (Hquery 0 10 _ eq_refl eq_refl ltac:(discriminate) eq_refl)
      as [Hrun Hgain].
    eexists. split; [exact Hrun | exact Hgain].
Defined.

(** Accepting with the daemon granting, with and without a buffer. *)
Lemma netdClientAccept4_granted_witness :
  observe (netdClientAccept4 3 None None 0 (world 0 0 granting))
    = Some ((4, None, None), 11, [4; 3], (0, 0),
            [EvLibcAccept4 3 None None 0 4;
             EvGetsockopt 4 SOL_SOCKET SO_DOMAIN 0 10;
             EvSend (mk_FwmarkCommand ON_ACCEPT 0 0) 4 None 0]) /\
  (exists w2,
     netdClientAccept4 3 (Some unix_addr) (Some 16) 0 (world 0 0 granting)
       = Some ((4, Some peer, Some 28), w2)) /\
  (exists w2,
     netdClientAccept4 3 None None 0 (world 0 0 granting)
       = Some ((4, None, None), w2)).
Proof.
  split; [reflexivity |]. split.
  - destruct (@netdClientAccept4_granted _ platform 3 (Some unix_addr)
                (Some 16) 0 (world 0 0 granting) 4 _ _ _
                eq_refl ltac:(discriminate)) as [Hbuffer _].
    destruct (Hbuffer peer _ eq_refl eq_refl eq_refl) as [Hrun _].
    eexists. exact Hrun.
  - destruct (@netdClientAccept4_granted _ platform 3 None None 0
                (world 0 0 granting) 4 _ _ _ eq_refl ltac:(discriminate))
      as [_ Hquery].
    destruct (Hquery 0 10 _ _ eq_refl eq_refl ltac:(discriminate) eq_refl
                eq_refl) as [Hrun _].
    eexists. exact Hrun.
Defined.

(** Accepting without a buffer on a kernel without SO_DOMAIN. *)
Lemma netdClientAccept4_getsockopt_failure_witness :
  observe (netdClientAccept4 (P := optionless_platform) 3 None None 0
             (world 0 0 granting))
    = Some ((-1, None, None), 92, [3], (0, 0),
            [EvLibcAccept4 3 None None 0 4;
             EvGetsockopt 4 SOL_SOCKET SO_DOMAIN (-1) 0;
             EvClose 4 0]) /\
  exists w3,
    netdClientAccept4 (P := optionless_platform) 3 None None 0
      (world 0 0 granting) = Some ((-1, None, None), w3) /\
    errno (sys w3) = 92.
Proof.
  split; [reflexivity |].
  assert (Hrange : INT_MIN <= 92 <= INT_MAX) by (unfold INT_MIN, INT_MAX; lia).
  destruct (@netdClientAccept4_getsockopt_failure _ optionless_platform 3 None
              0 (world 0 0 granting) 4 _ _ _ 0 _ eq_refl ltac:(discriminate)
              eq_refl Hrange)
    as (closed & w3 & Hrun & Herrno & _).
  exists w3. split; [exact Hrun | exact Herrno].
Defined.

(** The refused accept again: -1, and the last call closes 4. *)
Lemma netdClientAccept4_never_leaks_witness :
  exists w' (before : list Event) (closed : Z),
    netdClientAccept4 3 None None 0 (world 0 0 (refusing ON_ACCEPT (-13)))
      = Some ((-1, None, None), w') /\
    trace w' = [EvLibcAccept4 3 None None 0 4] ++ before ++ [EvClose 4 closed].
Proof.
  destruct (@netdClientAccept4_never_leaks _ platform 3 None None 0
              (world 0 0 (refusing ON_ACCEPT (-13))) 4 _ _ _ eq_refl)
    as (result & w' & calls & Hrun & Hgain & Hcases).
  assert (Hresult : result = -1).
  { pose proof (f_equal (option_map (fun x => fst (fst (fst x)))) Hrun) as H.
    cbv in H. now injection H as <-. }
  subst result.
  destruct Hcases as [[Hbad _] | (_ & _ & before & closed & -> & _)];
    [discriminate |].
  exists w', before, closed. split; [exact Hrun | exact Hgain].
Defined.

(** A granted connect on descriptor 3 to an IPv6 destination. *)
Lemma netdClientConnect_completion_report_witness :
  observe (netdClientConnect 3 (Some inet6_addr) 28 (world 0 0 granting))
    = Some (0, 11, [3], (0, 0),
            [EvSend (mk_FwmarkCommand ON_CONNECT 0 0) 3 None 0;
             EvLibcConnect 3 (Some inet6_addr) 28 0;
             EvSend (mk_FwmarkCommand ON_CONNECT_COMPLETE 0 0) 3
               (Some (mk_FwmarkConnectInfo 0 5 inet6_addr)) 0]) /\
  exists w2 (attempt : Event) (status : Z),
    netdClientConnect 3 (Some inet6_addr) 28 (world 0 0 granting)
      = Some (0, w2) /\
    trace w2 =
      [EvSend (mk_FwmarkCommand ON_CONNECT 0 0) 3 None 0;
       attempt;
       EvSend (mk_FwmarkCommand ON_CONNECT_COMPLETE 0 0) 3
         (Some (mk_FwmarkConnectInfo 0 5 inet6_addr)) status].
Proof.
  split; [reflexivity |].
  destruct (@netdClientConnect_completion_report _ platform 3 inet6_addr 28
              (world 0 0 granting) _ 0 _ ltac:(lia) eq_refl eq_refl eq_refl
              eq_refl)
    as (w2 & attempt & status & Hrun & _ & _ & Hgain).
  exists w2, attempt, status. split; [exact Hrun | exact Hgain].
Defined.

(** Pinning 50 from a process pinned to 7, the daemon refusing: the three
    calls of the probe. *)
Lemma setNetworkForTarget_probe_log_witness :
  exists (error closed : Z) w3,
    setNetworkForTarget 50 ForProcess (world 7 0 (refusing SELECT_NETWORK (-13)))
      = Some (error, w3) /\
    trace w3 =
      [EvLibcSocket 10 524290 0 4;
       EvSend (mk_FwmarkCommand SELECT_NETWORK 50 0) 4 None error;
       EvClose 4 closed].
Proof.
  destruct (@setNetworkForTarget_probe_log _ platform 50 ForProcess
              (world 7 0 (refusing SELECT_NETWORK (-13))) 4 _
              ltac:(discriminate) eq_refl ltac:(lia))
    as (error & closed & w3 & Hrun & Hgain).
  exists error, closed, w3. split; [exact Hrun | exact Hgain].
Defined.

(** Pinning the resolver network leaves the process network at 7. *)
Lemma setNetworkForTarget_other_slot_witness :
  exists (result : Z) w',
    setNetworkForTarget 50 ForResolv (world 7 0 granting) = Some (result, w') /\
    netIdForProcess w' = 7.
Proof.
  destruct (@setNetworkForTarget_other_slot _ platform 50 ForResolv
              (world 7 0 granting)) as (result & w' & Hrun & Hother).
  exists result, w'. split; [exact Hrun |].
  exact (Hother ForProcess ltac:(discriminate)).
Defined.

(** Pinning the process to 50 from 7: granted, the readers see 50;
    refused, they see 7. *)
Lemma pin_process_then_read_witness :
  (exists w3,
     setNetworkForProcess 50 (world 7 0 granting) = Some (0, w3) /\
     getNetworkForProcess w3 = Some (50, w3) /\
     getNetworkForResolv NETID_UNSET w3 = Some (50, w3)) /\
  (exists w3,
     setNetworkForProcess 50 (world 7 0 (refusing SELECT_NETWORK (-13)))
       = Some (-13, w3) /\
     getNetworkForProcess w3 = Some (7, w3)).
Proof.
  split.
  - destruct (@pin_process_then_read _ platform 50 (world 7 0 granting) 4 _ 0 _
                ltac:(discriminate) eq_refl ltac:(lia) eq_refl)
      as (w3 & Hrun & Hgranted & _).
    destruct (Hgranted eq_refl) as [Hprocess Hlookup].
    exists w3. auto.
  - destruct (@pin_process_then_read _ platform 50
                (world 7 0 (refusing SELECT_NETWORK (-13))) 4 _ (-13) _
                ltac:(discriminate) eq_refl ltac:(lia) eq_refl)
      as (w3 & Hrun & _ & Hrefused).
    destruct (Hrefused ltac:(discriminate)) as [Hprocess _].
    exists w3. auto.
Defined.

(** Pinning the resolver to 50: with the process pinned to 7 a lookup
    finds 7, with the process unpinned it finds 50; 5 asked for is 5. *)
Lemma pin_resolver_then_lookup_witness :
  (exists w3,
     setNetworkForResolv 50 (world 7 0 granting) = Some (0, w3) /\
     getNetworkForResolv NETID_UNSET w3 = Some (7, w3) /\
     getNetworkForResolv 5 w3 = Some (5, w3)) /\
  (exists w3,
     setNetworkForResolv 50 (world 0 0 granting) = Some (0, w3) /\
     getNetworkForResolv NETID_UNSET w3 = Some (50, w3) /\
     getNetworkForProcess w3 = Some (0, w3)).
Proof.
  split.
  - destruct (@pin_resolver_then_lookup _ platform 50 (world 7 0 granting) 4 _ _
                ltac:(discriminate) eq_refl ltac:(lia) eq_refl)
      as (w3 & Hrun & _ & Hexplicit & Hprocess & _).
    exists w3. split; [exact Hrun |]. split.
    + exact (Hprocess ltac:(discriminate)).
    + exact (Hexplicit 5 ltac:(discriminate)).
  - destruct (@pin_resolver_then_lookup _ platform 50 (world 0 0 granting) 4 _ _
                ltac:(discriminate) eq_refl ltac:(lia) eq_refl)
      as (w3 & Hrun & Hread & _ & _ & Hresolver).
    exists w3. split; [exact Hrun |]. split.
    + exact (Hresolver eq_refl).
    + exact Hread.
Defined.

(** Pinning 50, then an IPv6 socket: marked with 50.  Clearing the pin,
    then an IPv6 socket: returned as created. *)
Lemma pin_then_socket_witness :
  observe (bind (setNetworkForProcess 50)
             (fun _ => netdClientSocket 10 1 0) (world 0 0 granting))
    = Some (4, 11, [4; 3], (50, 0),
            [EvLibcSocket 10 524290 0 4;
             EvSend (mk_FwmarkCommand SELECT_NETWORK 50 0) 4 None 0;
             EvClose 4 0;
             EvLibcSocket 10 1 0 4;
             EvSend (mk_FwmarkCommand SELECT_NETWORK 50 0) 4 None 0]) /\
  (exists w3 (result status : Z) w5 (rest : list Event),
     setNetworkForProcess 50 (world 0 0 granting) = Some (0, w3) /\
     netdClientSocket 10 1 0 w3 = Some (result, w5) /\
     trace w5 =
       trace w3 ++ [EvLibcSocket 10 1 0 4] ++
       EvSend (mk_FwmarkCommand SELECT_NETWORK 50 0) 4 None status :: rest) /\
  (exists w3 w4,
     setNetworkForProcess NETID_UNSET (world 50 0 granting) = Some (0, w3) /\
     netdClientSocket 10 1 0 w3 = Some (4, w4)).
Proof.
  split; [reflexivity |]. split.
  - destruct (@pin_then_socket _ platform (world 0 0 granting) 10 1 0)
      as [Hpinned _].
    destruct (Hpinned 50 4 _ _ _ 4 _ ltac:(discriminate) eq_refl ltac:(lia)
                eq_refl eq_refl eq_refl eq_refl ltac:(lia))
      as (result & status & w5 & rest & Hrun & Hgain).
    eexists. exists result, status, w5, rest.
    split; [reflexivity |]. split; [exact Hrun | exact Hgain].
  - destruct (@pin_then_socket _ platform (world 50 0 granting) 10 1 0)
      as [_ Hcleared].
    eexists. eexists. split; [reflexivity |].
    exact (Hcleared _ 4 _ eq_refl eq_refl).
Defined.

(** Reading the mark of descriptor 3 (mark 0x10064, network 100); with a
    null result pointer; on a kernel without SO_MARK. *)
Lemma getNetworkForSocket_outcomes_witness :
  getNetworkForSocket None 3 (world 0 0 granting)
    = Some ((-9, None), world 0 0 granting) /\
  (exists w1,
     getNetworkForSocket (Some 0) 3 (world 0 0 granting)
       = Some ((0, Some 100), w1) /\
     trace w1 = [EvGetsockopt 3 SOL_SOCKET SO_MARK 0 65636]) /\
  (exists w1,
     getNetworkForSocket (P := optionless_platform) (Some 7) 3
       (world 0 0 granting) = Some ((-92, Some 7), w1)).
Proof.
  split; [| split].
  - exact (proj1 (@getNetworkForSocket_outcomes _ platform 3 (world 0 0 granting))).
  - destruct (proj2 (@getNetworkForSocket_outcomes _ platform 3
                       (world 0 0 granting)) 0 0 65636 _ ltac:(lia) eq_refl)
      as (Hgain & _ & Hread).
    eexists. split; [exact (Hread ltac:(discriminate)) | exact Hgain].
  - destruct (proj2 (@getNetworkForSocket_outcomes _ optionless_platform 3
                       (world 0 0 granting)) 7 (-1) 0 _ ltac:(lia) eq_refl)
      as (_ & Hfailed & _).
    eexists. exact (Hfailed eq_refl).
Defined.

(** The three marking entry points on descriptor 0. *)
Lemma marking_sends_once_witness :
  (exists w',
     setNetworkForSocket 50 0 (world 0 0 granting) = Some (0, w') /\
     trace w' = [EvSend (mk_FwmarkCommand SELECT_NETWORK 50 0) 0 None 0]) /\
  (exists w',
     protectFromVpn 0 (world 0 0 (refusing PROTECT_FROM_VPN (-1)))
       = Some (-1, w') /\
     trace w' = [EvSend (mk_FwmarkCommand PROTECT_FROM_VPN 0 0) 0 None (-1)]) /\
  (exists w',
     setNetworkForUser 1000 0 (world 0 0 granting) = Some (0, w') /\
     trace w' = [EvSend (mk_FwmarkCommand SELECT_FOR_USER 0 1000) 0 None 0]).
Proof.
  split; [| split].
  - destruct (@marking_sends_once _ platform 0 (world 0 0 granting) ltac:(lia))
      as (Hselect & _ & _).
    exact (Hselect 50).
  - destruct (@marking_sends_once _ platform 0
                (world 0 0 (refusing PROTECT_FROM_VPN (-1))) ltac:(lia))
      as (_ & Hprotect & _).
    exact Hprotect.
  - destruct (@marking_sends_once _ platform 0 (world 0 0 granting) ltac:(lia))
      as (_ & _ & Huser).
    exact (Huser 1000).
Defined.

(** A marked socket creation in a process pinned to 50 and 60 leaves both
    pins. *)
Lemma only_pins_write_the_slots_witness :
  exists w',
    netdClientSocket 10 1 0 (world 50 60 granting) = Some (4, w') /\
    netIdForProcess w' = 50 /\ netIdForResolv w' = 60.
Proof.
  destruct (netdClientSocket 10 1 0 (world 50 60 granting))
    as [[r w'] |] eqn:Hrun; [| discriminate].
  assert (Hr : r = 4).
  { pose proof (f_equal (option_map fst) Hrun) as H. cbv in H.
    now injection H as <-. }
  subst r. exists w'. split; [reflexivity |].
  exact (proj1 (@only_pins_write_the_slots _ platform) 10 1 0 _ _ _ Hrun).
Defined.

(** A granted pin leaves the captured [socket] where it was. *)
Lemma entry_points_are_never_reassigned_witness :
  exists w',
    setNetworkForProcess 50 (world 0 0 granting) = Some (0, w') /\
    libcSocket w' = Some demo_socket.
Proof.
  destruct (setNetworkForProcess 50 (world 0 0 granting))
    as [[r w'] |] eqn:Hrun; [| discriminate].
  assert (Hr : r = 0).
  { pose proof (f_equal (option_map fst) Hrun) as H. cbv in H.
    now injection H as <-. }
  subst r. exists w'. split; [reflexivity |].
  destruct (@entry_points_are_never_reassigned _ platform)
    as (_ & _ & _ & _ & Hpin & _).
  exact (proj1 (proj2 (proj2 (Hpin 50 _ _ _ Hrun)))).
Defined.

(** The installed process runs its wrappers; a process without the
    captured [socket] does not run the wrapped one, but pins all the same. *)
Lemma no_null_call_once_installed_witness :
  (exists (result : Z) w',
     netdClientSocket 10 1 0 (world 50 0 granting) = Some (result, w')) /\
  (exists (result : Z) w',
     netdClientConnect 3 None 0 (world 50 0 granting) = Some (result, w')) /\
  netdClientSocket 10 1 0
    (mk_World (mk_Sys 0 (mk_kernel [3] granting)) 0 0 None None None
       (mk_PropClientDispatch None None) []) = None /\
  (exists (result : Z) w',
     setNetworkForTarget 50 ForProcess
       (mk_World (mk_Sys 0 (mk_kernel [3] granting)) 0 0 None None None
          (mk_PropClientDispatch None None) []) = Some (result, w')).
Proof.
  assert (Hinstalled : installed (world 50 0 granting))
    by (repeat split; discriminate).
  destruct (@no_null_call_once_installed _ platform (world 50 0 granting))
    as (Hwrappers & _).
  destruct (Hwrappers Hinstalled) as (Hsocket & Hconnect & _).
  split; [exact (Hsocket 10 1 0) |].
  split; [exact (Hconnect 3 None 0 (or_introl eq_refl)) |].
  destruct (@no_null_call_once_installed _ platform
              (mk_World (mk_Sys 0 (mk_kernel [3] granting)) 0 0 None None None
                 (mk_PropClientDispatch None None) []))
    as (_ & Hpin & _ & _ & _ & _ & _ & Hbare).
  split; [exact (Hbare eq_refl eq_refl 10 1 0) | exact (Hpin 50 ForProcess)].
Defined.

(** With an empty table the two builds create the same socket and make
    the same connect; with the vendor's table they differ (the vendor
    refuses IPv4). *)
Lemma builds_agree_without_dispatch_witness :
  netdClientSocket (P := wrapper_platform) 2 1 0 (world 0 0 granting)
    = netdClientSocket (P := platform) 2 1 0 (world 0 0 granting) /\
  netdClientConnect (P := wrapper_platform) 3 (Some inet_addr) 16
    (world 0 0 granting)
    = netdClientConnect (P := platform) 3 (Some inet_addr) 16
        (world 0 0 granting) /\
  observe (netdClientSocket (P := wrapper_platform) 2 1 0
             (vendor_world 0 0 granting))
    = Some (-1, 1, [3], (0, 0), [EvPropSocket 2 1 0 (-1)]) /\
  observe (netdClientSocket (P := platform) 2 1 0 (vendor_world 0 0 granting))
    = Some (4, 0, [4; 3], (0, 0), [EvLibcSocket 2 1 0 4]).
Proof.
  destruct (@builds_agree_without_dispatch _ platform (world 0 0 granting))
    as (_ & Hsocket & Hconnect).
  split; [exact (Hsocket eq_refl 2 1 0) |].
  split; [exact (Hconnect 3 inet_addr 16 (or_introl eq_refl)) |].
  split; reflexivity.
Defined.

End Runs.
